(** * zksync-telemetry-js: the telemetry client and its config store

    A shallow embedding of [src/utils.ts], [src/types.ts], [src/constants.ts],
    [src/config.ts] and [src/telemetry.ts].

    The TypeScript types are erased at run time, so a config is a JavaScript
    value (whatever [JSON.parse] returned), and property reads and writes are
    the dynamic ones.  Everything the code asks of the outside (file system,
    terminal, clock, uuid generator, the PostHog and Sentry SDKs) is answered
    by an environment [Env]; each answer may depend on the whole history of
    calls made so far, and every call into the file system or into one of the
    two SDKs can throw.  Methods are computations in a state-and-exception
    monad whose state survives a throw, as the fields of a JavaScript object
    do. *)

From Stdlib Require Import String Ascii List ZArith Bool Lia.
Import ListNotations.
Open Scope string_scope.

(** ** JavaScript values *)

Module Js.

(** An object is a plain object, an array (its elements are the properties
    named by their index) or a [Date]. *)
Inductive ObjKind : Type :=
| PlainObject
| ArrayObject
| DateObject (ms : Z).

(** Numbers are the integral ones; the code never computes with a number,
    it only tests one for truthiness. *)
#[warnings="-register-all"]
Inductive Value : Type :=
| VUndefined
| VNull
| VBool (b : bool)
| VNumber (z : Z)
| VString (s : string)
| VObject (k : ObjKind) (fields : list (string * Value)).

(** [Record<string, any>]: own enumerable string-keyed properties in
    insertion order. *)
Definition Props : Type := list (string * Value).

(** An [Error] object: [name], [message], and the [code] field that
    [TelemetryError] adds. *)
Record Error : Type := mkError {
  name : string;
  message : string;
  code : option string
}.

Definition TypeError (msg : string) : Error :=
  {| name := "TypeError"; message := msg; code := None |}.

(** [Error.prototype.toString], which a template literal applies. *)
Definition toString (e : Error) : string :=
  if String.eqb (name e) "" then message e
  else if String.eqb (message e) "" then name e
  else name e ++ ": " ++ message e.

(** ToBoolean. *)
Definition truthy (v : Value) : bool :=
  match v with
  | VUndefined | VNull => false
  | VBool b => b
  | VNumber z => negb (Z.eqb z 0)
  | VString s => negb (String.eqb s "")
  | VObject _ _ => true
  end.

Fixpoint lookup (k : string) (ps : Props) : option Value :=
  match ps with
  | [] => None
  | (k', v) :: rest => if String.eqb k k' then Some v else lookup k rest
  end.

(** [o[k] = v] on the property list: an existing key keeps its place. *)
Fixpoint assign (k : string) (v : Value) (ps : Props) : Props :=
  match ps with
  | [] => [(k, v)]
  | (k', v') :: rest =>
      if String.eqb k k' then (k', v) :: rest else (k', v') :: assign k v rest
  end.

(** [{...ps}] copied onto the properties [acc] of an object literal. *)
Definition spread (ps : Props) (acc : Props) : Props :=
  fold_left (fun o kv => assign (fst kv) (snd kv) o) ps acc.

(** [v.k]: reading a property of [undefined] or [null] throws; a primitive
    has none of the properties the code reads ([enabled], [instanceId],
    [configPath]). *)
Definition get (v : Value) (k : string) : Error + Value :=
  match v with
  | VUndefined => inl (TypeError ("Cannot read properties of undefined (reading " ++ k ++ ")"))
  | VNull => inl (TypeError ("Cannot read properties of null (reading " ++ k ++ ")"))
  | VObject _ fields =>
      match lookup k fields with
      | Some x => inr x
      | None => inr VUndefined
      end
  | _ => inr VUndefined
  end.

(** [v.k = x] in strict mode code (class bodies are strict): only an object
    takes the property. *)
Definition set (v : Value) (k : string) (x : Value) : Error + Value :=
  match v with
  | VUndefined => inl (TypeError ("Cannot set properties of undefined (setting " ++ k ++ ")"))
  | VNull => inl (TypeError ("Cannot set properties of null (setting " ++ k ++ ")"))
  | VObject kind fields => inr (VObject kind (assign k x fields))
  | _ => inl (TypeError ("Cannot create property " ++ k ++ " on a primitive"))
  end.

(** [String.prototype.toLowerCase] on the ASCII letters. *)
Definition lower_ascii (c : ascii) : ascii :=
  let n := nat_of_ascii c in
  if andb (Nat.leb 65 n) (Nat.leb n 90) then ascii_of_nat (n + 32) else c.

Fixpoint toLowerCase (s : string) : string :=
  match s with
  | EmptyString => EmptyString
  | String c rest => String (lower_ascii c) (toLowerCase rest)
  end.

Definition startsWith (s p : string) : bool := String.prefix p s.

(** [String.prototype.includes]. *)
Fixpoint includes (s p : string) : bool :=
  if String.prefix p s then true
  else match s with
       | EmptyString => false
       | String _ rest => includes rest p
       end.

End Js.

Import Js.

(** ** src/types.ts *)

(** [new TelemetryError(message, code)]. *)
Definition TelemetryError (msg c : string) : Error :=
  {| name := "TelemetryError"; message := msg; code := Some c |}.

(** ** src/constants.ts *)

Module TELEMETRY_KEYS.
Definition posthogKey : string := "phc_YourPublicPostHogKey123".
Definition sentryDsn : string := "https://your-public-dsn@sentry.io/12345".
End TELEMETRY_KEYS.

Definition POSTHOG_URL : string := "https://app.posthog.com".

(** ** The outside world *)

(** The options object handed to [Sentry.init]. *)
Record SentryOptions : Type := mkSentryOptions {
  dsn : string;
  release : option string;
  tag_app : string;
  tag_version : string;
  tag_platform : string
}.

(** One entry per call that leaves the program, recorded whether the call
    returns or throws.  A PostHog client object is named by the length of the
    history at its construction. *)
Inductive Event : Type :=
| EvConsoleLog (line : string)
| EvConsoleError (msg : string) (e : Error)
| EvFsAccess (path : string)
| EvFsReadFile (path : string)
| EvFsMkdir (dir : string)
| EvFsWriteFile (path : Value) (content : string)
| EvQuestion (prompt : string)
| EvUuid
| EvNewDate
| EvPostHogNew (key host : string)
| EvPostHogCapture (client : nat) (distinctId : Value) (event : string)
    (properties : Props)
| EvPostHogShutdown (client : nat)
| EvSentryInit (opts : SentryOptions)
| EvSentryCapture (error : Error) (extras : Props)
| EvSentryClose (timeout : Z).

(** The history of calls, newest first. *)
Definition World : Type := list Event.

(** What the platform answers.  [None] from a call that returns nothing means
    it returned; [Some e] means it threw (or its promise rejected with) [e]. *)
Record Env : Type := mkEnv {
  platform : string;                       (* process.platform *)
  node_version : string;                   (* process.version *)
  env_var : string -> option string;       (* process.env *)
  stdin_isatty : bool;                     (* isatty(process.stdin.fd) *)
  stdout_isatty : bool;                    (* isatty(process.stdout.fd) *)
  path_join : list string -> string;
  path_dirname : string -> string;
  JSON_parse : string -> option Value;     (* None: SyntaxError *)
  JSON_parse_error : string -> Error;
  JSON_stringify : Value -> string;        (* JSON.stringify(v, null, 2) *)
  fs_access : World -> string -> option Error;
  fs_readFile : World -> string -> Error + string;
  fs_mkdir : World -> string -> option Error;
  fs_writeFile : World -> Value -> string -> option Error;
  question : World -> string -> string;
  uuidv4 : World -> string;
  new_Date : World -> Z;
  posthog_new : World -> string -> string -> option Error;
  posthog_capture : World -> nat -> Value -> string -> Props -> option Error;
  posthog_shutdown : World -> nat -> option Error;
  sentry_init : World -> SentryOptions -> option Error;
  sentry_capture : World -> Error -> Props -> option Error;
  sentry_close : World -> Z -> option Error
}.

(** ** Computations: state that survives a throw *)

Inductive Outcome (A : Type) : Type :=
| Ok (a : A)
| Throw (e : Error).
Arguments Ok {A} a.
Arguments Throw {A} e.

Definition M (S A : Type) : Type := S -> Outcome A * S.

Definition ret {S A} (a : A) : M S A := fun s => (Ok a, s).

Definition throw {S A} (e : Error) : M S A := fun s => (Throw e, s).

Definition bind {S A B} (m : M S A) (f : A -> M S B) : M S B :=
  fun s =>
    match m s with
    | (Ok a, s') => f a s'
    | (Throw e, s') => (Throw e, s')
    end.

(** [try { m } catch (error) { handler error }]. *)
Definition try_catch {S A} (m : M S A) (handler : Error -> M S A) : M S A :=
  fun s =>
    match m s with
    | (Ok a, s') => (Ok a, s')
    | (Throw e, s') => handler e s'
    end.

Declare Scope js_scope.
Delimit Scope js_scope with js.
Notation "x <- m ;; k" := (bind m (fun x => k))
  (at level 61, m at next level, right associativity) : js_scope.
Notation "m ;; k" := (bind m (fun _ => k))
  (at level 61, right associativity) : js_scope.
Open Scope js_scope.

(** An [Error + A] result entering the monad. *)
Definition of_result {S A} (r : Error + A) : M S A :=
  match r with
  | inl e => throw e
  | inr a => ret a
  end.

(** A computation on the world alone, run inside an object's method. *)
Definition liftW {X A} (m : M World A) : M (X * World) A :=
  fun s =>
    match m (snd s) with
    | (r, w') => (r, (fst s, w'))
    end.

Definition get_this {X} : M (X * World) X := fun s => (Ok (fst s), s).

Definition modify_this {X} (f : X -> X) : M (X * World) unit :=
  fun s => (Ok tt, (f (fst s), snd s)).

(** ** Calls that leave the program *)

Section Platform.
Variable E : Env.

(** A call that returns nothing or throws. *)
Definition call (ev : Event) (answer : World -> option Error) : M World unit :=
  fun w =>
    match answer w with
    | None => (Ok tt, ev :: w)
    | Some e => (Throw e, ev :: w)
    end.

(** A call that cannot throw and returns a value. *)
Definition ask {A} (ev : Event) (answer : World -> A) : M World A :=
  fun w => (Ok (answer w), ev :: w).

Definition console_log (line : string) : M World unit :=
  ask (EvConsoleLog line) (fun _ => tt).

Definition console_error (msg : string) (e : Error) : M World unit :=
  ask (EvConsoleError msg e) (fun _ => tt).

Definition access (path : string) : M World unit :=
  call (EvFsAccess path) (fun w => fs_access E w path).

Definition readFile (path : string) : M World string :=
  fun w => match fs_readFile E w path with
           | inl e => (Throw e, EvFsReadFile path :: w)
           | inr content => (Ok content, EvFsReadFile path :: w)
           end.

Definition mkdir (dir : string) : M World unit :=
  call (EvFsMkdir dir) (fun w => fs_mkdir E w dir).

Definition writeFile (path : Value) (content : string) : M World unit :=
  call (EvFsWriteFile path content) (fun w => fs_writeFile E w path content).

(** [JSON.parse] is pure: it leaves no entry in the history. *)
Definition parse (content : string) : M World Value :=
  match JSON_parse E content with
  | Some v => ret v
  | None => throw (JSON_parse_error E content)
  end.

(** [process.env.X || ...]: an unset or empty variable is falsy. *)
Definition env_truthy (x : string) : bool :=
  match env_var E x with
  | Some s => negb (String.eqb s "")
  | None => false
  end.

(** [process.env.npm_package_version || 'unknown']. *)
Definition version_or_unknown : string :=
  match env_var E "npm_package_version" with
  | Some s => if String.eqb s "" then "unknown" else s
  | None => "unknown"
  end.

(** [process.env.npm_package_version] as a value. *)
Definition version_value : Value :=
  match env_var E "npm_package_version" with
  | Some s => VString s
  | None => VUndefined
  end.

End Platform.

(** ** src/utils.ts *)

Section Utils.
Variable E : Env.

Definition isCiEnvironment : bool :=
  env_truthy E "CI" || env_truthy E "CONTINUOUS_INTEGRATION"
  || env_truthy E "BUILD_NUMBER" || env_truthy E "GITHUB_ACTIONS".

Definition isInteractive : bool :=
  stdin_isatty E && stdout_isatty E && negb isCiEnvironment.

Definition promptYesNo (prompt : string) : M World bool :=
  answer <- ask (EvQuestion (prompt ++ " (y/n) "))
                (fun w => question E w (prompt ++ " (y/n) ")) ;;
  ret (startsWith (toLowerCase answer) "y").

End Utils.

(** ** src/config.ts *)

Module ConfigManager.
Section ConfigManager.
Variable E : Env.

Definition getDefaultConfigPath (appName : string) : M World string :=
  match env_var E "HOME" with
  | None =>
      (* path.join(undefined, ...) *)
      throw (TypeError "The path argument must be of type string. Received undefined")
  | Some home =>
      let configDir :=
        if String.eqb (platform E) "darwin"
        then path_join E [home; "Library"; "Application Support"; "com.matter-labs"; appName]
        else path_join E [home; ".config"; appName] in
      ret (path_join E [configDir; "telemetry.json"])
  end.

(** [customPath || this.getDefaultConfigPath(appName)]. *)
Definition resolveConfigPath (appName : string) (customPath : option string)
  : M World string :=
  match customPath with
  | Some p => if String.eqb p "" then getDefaultConfigPath appName else ret p
  | None => getDefaultConfigPath appName
  end.

(** The object literal of [createNew]. *)
Definition newConfig (enabled : bool) (instanceId : string) (createdAt : Z)
    (configPath : string) : Value :=
  VObject PlainObject
    [ ("enabled", VBool enabled);
      ("instanceId", VString instanceId);
      ("createdAt", VObject (DateObject createdAt) []);
      ("configPath", VString configPath) ].

Definition consentBanner : list string :=
  [ "Help us improve zkSync by sending anonymous usage data.";
    "We collect:";
    "  - Basic usage statistics";
    "  - Error reports";
    "  - Platform information";
    "";
    "We DO NOT collect:";
    "  - Personal information";
    "  - Sensitive configuration";
    "  - Private keys or addresses" ].

Fixpoint console_log_all (lines : list string) : M World unit :=
  match lines with
  | [] => ret tt
  | l :: rest => console_log l ;; console_log_all rest
  end.

Definition createNew (appName : string) (configPath : string) : M World Value :=
  if negb (isInteractive E) then
    instanceId <- ask EvUuid (uuidv4 E) ;;
    createdAt <- ask EvNewDate (new_Date E) ;;
    ret (newConfig false instanceId createdAt configPath)
  else
    console_log_all consentBanner ;;
    enabled <- promptYesNo E "Would you like to enable telemetry?" ;;
    instanceId <- ask EvUuid (uuidv4 E) ;;
    createdAt <- ask EvNewDate (new_Date E) ;;
    let config := newConfig enabled instanceId createdAt configPath in
    try_catch
      (mkdir E (path_dirname E configPath) ;;
       writeFile E (VString configPath) (JSON_stringify E config))
      (fun error =>
         throw (TelemetryError ("Failed to save config: " ++ toString error)
                               "CONFIG_SAVE_ERROR")) ;;
    ret config.

(** The [try] block of [load]. *)
Definition readExisting (configPath : string) : M World Value :=
  access E configPath ;;
  content <- readFile E configPath ;;
  parse E content.

Definition load (appName : string) (customPath : option string) : M World Value :=
  configPath <- resolveConfigPath appName customPath ;;
  try_catch (readExisting configPath)
            (fun _ => createNew appName configPath).

(** [updateConsent(config, enabled)]: the state is the object [config]
    refers to, together with the world. *)
Definition updateConsent (enabled : bool) : M (Value * World) unit :=
  config <- get_this ;;
  configPath <- of_result (get config "configPath") ;;
  if negb (truthy configPath) then
    throw (TelemetryError "No config path specified" "CONFIG_PATH_ERROR")
  else
    config' <- of_result (set config "enabled" (VBool enabled)) ;;
    modify_this (fun _ => config') ;;
    path <- of_result (get config' "configPath") ;;
    liftW (writeFile E path (JSON_stringify E config')).

End ConfigManager.
End ConfigManager.

(** ** src/telemetry.ts *)

Module Telemetry.

(** The fields of a [Telemetry] instance.  [posthog] is the PostHog client
    object the instance holds, if any. *)
Record t : Type := mk {
  config : Value;
  posthog : option nat;
  sentryInitialized : bool;
  appName : string
}.

Definition set_config (c : Value) (this : t) : t :=
  {| config := c; posthog := posthog this;
     sentryInitialized := sentryInitialized this; appName := appName this |}.

Definition set_posthog (p : option nat) (this : t) : t :=
  {| config := config this; posthog := p;
     sentryInitialized := sentryInitialized this; appName := appName this |}.

Definition set_sentryInitialized (b : bool) (this : t) : t :=
  {| config := config this; posthog := posthog this;
     sentryInitialized := b; appName := appName this |}.

(** [this.posthog] is set. *)
Definition connected (this : t) : bool :=
  match posthog this with
  | Some _ => true
  | None => false
  end.

(** A method of [ConfigManager] run on the object [this.config] refers to. *)
Definition on_config {A} (m : M (Value * World) A) : M (t * World) A :=
  fun s =>
    match m (config (fst s), snd s) with
    | (r, (c', w')) => (r, (set_config c' (fst s), w'))
    end.

(** [await Promise.all([a(), b()])] for two async functions whose bodies
    never await: [a] runs to its end, then [b], whatever [a] did; the
    first rejection, if any, is the one raised. *)
Definition promise_all2 {S} (a b : M S unit) : M S unit :=
  fun s =>
    match a s with
    | (ra, s1) =>
        match b s1 with
        | (rb, s2) =>
            match ra with
            | Throw e => (Throw e, s2)
            | Ok _ => (rb, s2)
            end
        end
    end.

Section Telemetry.
Variable E : Env.

(** [new PostHog(TELEMETRY_KEYS.posthogKey, { host: POSTHOG_URL })]. *)
Definition new_PostHog : M World nat :=
  fun w =>
    let ev := EvPostHogNew TELEMETRY_KEYS.posthogKey POSTHOG_URL in
    match posthog_new E w TELEMETRY_KEYS.posthogKey POSTHOG_URL with
    | None => (Ok (length w), ev :: w)
    | Some e => (Throw e, ev :: w)
    end.

Definition sentryOptions (app : string) : SentryOptions :=
  {| dsn := TELEMETRY_KEYS.sentryDsn;
     release := env_var E "npm_package_version";
     tag_app := app;
     tag_version := version_or_unknown E;
     tag_platform := platform E |}.

Definition Sentry_init (app : string) : M World unit :=
  call (EvSentryInit (sentryOptions app))
       (fun w => sentry_init E w (sentryOptions app)).

Definition reconnectPostHog : M (t * World) unit :=
  this <- get_this ;;
  enabled <- of_result (get (config this) "enabled") ;;
  if truthy enabled && negb (connected this) then
    try_catch
      (client <- liftW new_PostHog ;;
       modify_this (set_posthog (Some client)))
      (fun error => liftW (console_error "Failed to reconnect to PostHog:" error))
  else ret tt.

Definition reconnectSentry : M (t * World) unit :=
  this <- get_this ;;
  enabled <- of_result (get (config this) "enabled") ;;
  if truthy enabled && negb (sentryInitialized this) then
    try_catch
      (liftW (Sentry_init (appName this)) ;;
       modify_this (set_sentryInitialized true))
      (fun error => liftW (console_error "Failed to reconnect to Sentry:" error))
  else ret tt.

Definition initialize (app : string) (customConfigPath : option string)
  : M World t :=
  cfg <- ConfigManager.load E app customConfigPath ;;
  enabled <- of_result (get cfg "enabled") ;;
  if truthy enabled then
    posthogClient <-
      try_catch (client <- new_PostHog ;; ret (Some client))
                (fun error =>
                   console_error "Failed to initialize PostHog:" error ;;
                   ret None) ;;
    sentryOk <-
      try_catch (Sentry_init app ;; ret true)
                (fun error =>
                   console_error "Failed to initialize Sentry:" error ;;
                   ret false) ;;
    ret {| config := cfg; posthog := posthogClient;
           sentryInitialized := sentryOk; appName := app |}
  else
    ret {| config := cfg; posthog := None;
           sentryInitialized := false; appName := app |}.

(** The object literal built in [trackEvent]. *)
Definition enrichedProperties (properties : Props) (instanceId : Value) : Props :=
  assign "node_version" (VString (node_version E))
    (assign "version" (VString (version_or_unknown E))
      (assign "platform" (VString (platform E))
        (assign "distinct_id" instanceId
          (spread properties [])))).

(** [this.posthog.capture({ distinctId, event, properties })]. *)
Definition capture (client : nat) (distinctId : Value) (event : string)
    (properties : Props) : M World unit :=
  call (EvPostHogCapture client distinctId event properties)
       (fun w => posthog_capture E w client distinctId event properties).

(** [properties] is [None] when the caller leaves the argument out; the
    default is the empty object. *)
Definition trackEvent (eventName : string) (properties : option Props)
  : M (t * World) unit :=
  let properties := match properties with Some p => p | None => [] end in
  this <- get_this ;;
  enabled <- of_result (get (config this) "enabled") ;;
  if negb (truthy enabled) then ret tt
  else
    (match posthog this with
     | None => reconnectPostHog
     | Some _ => ret tt
     end) ;;
    this <- get_this ;;
    match posthog this with
    | None => ret tt
    | Some client =>
        try_catch
          (id1 <- of_result (get (config this) "instanceId") ;;
           let enriched := enrichedProperties properties id1 in
           id2 <- of_result (get (config this) "instanceId") ;;
           liftW (capture client id2 eventName enriched))
          (fun error =>
             throw (TelemetryError ("Failed to track event: " ++ toString error)
                                   "EVENT_TRACKING_ERROR"))
    end.

(** The object handed to [scope.setExtras] in [trackError]. *)
Definition extras (context : Props) (instanceId : Value) : Props :=
  assign "instanceId" instanceId
    (assign "version" (version_value E)
      (assign "platform" (VString (platform E))
        (spread context []))).

(** [Sentry.withScope(scope => { scope.setExtras(x); Sentry.captureException(error) })]:
    one call into the SDK. *)
Definition withScope_capture (error : Error) (x : Props) : M World unit :=
  call (EvSentryCapture error x) (fun w => sentry_capture E w error x).

Definition trackError (error : Error) (context : option Props)
  : M (t * World) unit :=
  let context := match context with Some c => c | None => [] end in
  this <- get_this ;;
  enabled <- of_result (get (config this) "enabled") ;;
  if negb (truthy enabled) then ret tt
  else
    (if negb (sentryInitialized this) then
       (* [reconnectSentry] never awaits, so its body has run when the call
          returns; a rejection would only reach the [.catch] callback. *)
       try_catch reconnectSentry
         (fun error => liftW (console_error "Failed to reconnect to Sentry:" error))
     else ret tt) ;;
    this <- get_this ;;
    if negb (sentryInitialized this) then ret tt
    else
      instanceId <- of_result (get (config this) "instanceId") ;;
      liftW (withScope_capture error (extras context instanceId)).

Definition updateConsent (enabled : bool) : M (t * World) unit :=
  on_config (ConfigManager.updateConsent E enabled) ;;
  this <- get_this ;;
  config' <- of_result (set (config this) "enabled" (VBool enabled)) ;;
  modify_this (set_config config') ;;
  if enabled then promise_all2 reconnectPostHog reconnectSentry
  else ret tt.

Definition shutdown : M (t * World) unit :=
  this <- get_this ;;
  (match posthog this with
   | Some client =>
       liftW (call (EvPostHogShutdown client) (fun w => posthog_shutdown E w client)) ;;
       modify_this (set_posthog None)
   | None => ret tt
   end) ;;
  this <- get_this ;;
  if sentryInitialized this then
    liftW (call (EvSentryClose 2000) (fun w => sentry_close E w 2000)) ;;
    modify_this (set_sentryInitialized false)
  else ret tt.

End Telemetry.
End Telemetry.

(** ** The sanitizer as the specification words it *)

Module Spec.

Definition sensitiveSubstrings : list string := ["key"; "password"; "token"].

(** The key, lowercased, contains one of the substrings. *)
Definition isSensitive (k : string) : bool :=
  existsb (fun s => includes (toLowerCase k) s) sensitiveSubstrings.

(** Section 4.3 of the specification: the entries whose key is not
    sensitive, each with its value.  The source has no such function; this
    definition is what the README's sentence on automatic removal and the
    specification describe, to be compared with what [trackEvent] and
    [trackError] send. *)
Definition sanitize (properties : Props) : Props :=
  filter (fun kv => negb (isSensitive (fst kv))) properties.

End Spec.

(** ** Concrete environments *)

Module Scenario.

(** Which outside calls fail. *)
Record Faults : Type := mkFaults {
  no_tty : bool;
  write_fails : bool;
  posthog_new_fails : bool;
  sentry_init_fails : bool;
  capture_fails : bool;
  posthog_shutdown_fails : bool;
  sentry_capture_fails : bool
}.

Definition none : Faults := mkFaults false false false false false false false.

Definition failure (what : string) : Error :=
  {| name := "Error"; message := what; code := None |}.

Definition fail_if (b : bool) (what : string) : option Error :=
  if b then Some (failure what) else None.

(** A Linux host with no config on disk; the user answers [y]. *)
Definition env (f : Faults) : Env :=
  {| platform := "linux";
     node_version := "v20.11.0";
     env_var := fun x =>
       if String.eqb x "HOME" then Some "/home/u"
       else if String.eqb x "npm_package_version" then Some "1.0.0"
       else None;
     stdin_isatty := negb (no_tty f);
     stdout_isatty := negb (no_tty f);
     path_join := String.concat "/";
     path_dirname := fun _ => "/home/u/.config/tool";
     JSON_parse := fun s =>
       if String.eqb s "[]" then Some (VObject ArrayObject [])
       else if String.eqb s "42" then Some (VNumber 42)
       else None;
     JSON_parse_error := fun _ => mkError "SyntaxError" "Unexpected token" None;
     JSON_stringify := fun _ => "{}";
     fs_access := fun _ p =>
       if String.eqb p "/tmp/odd.json" then None else Some (failure "ENOENT");
     fs_readFile := fun _ p =>
       if String.eqb p "/tmp/odd.json" then inr "[]" else inl (failure "ENOENT");
     fs_mkdir := fun _ _ => None;
     fs_writeFile := fun _ _ _ => fail_if (write_fails f) "EACCES";
     question := fun _ _ => "y";
     uuidv4 := fun _ => "7d5f0c0e-0000-4000-8000-000000000001";
     new_Date := fun _ => 1700000000000%Z;
     posthog_new := fun _ _ _ => fail_if (posthog_new_fails f) "PostHog constructor";
     posthog_capture := fun _ _ _ _ _ => fail_if (capture_fails f) "capture";
     posthog_shutdown := fun _ _ => fail_if (posthog_shutdown_fails f) "flush";
     sentry_init := fun _ _ => fail_if (sentry_init_fails f) "Sentry.init";
     sentry_capture := fun _ _ _ => fail_if (sentry_capture_fails f) "captureException";
     sentry_close := fun _ _ => None |}.

(** A consent record as [createNew] writes it. *)
Definition cfg (enabled : bool) (path : Value) : Value :=
  VObject PlainObject
    [ ("enabled", VBool enabled);
      ("instanceId", VString "id-1");
      ("createdAt", VString "2024-01-01T00:00:00.000Z");
      ("configPath", path) ].

(** An enabled client with both connectors up: PostHog client object 0,
    constructed first, then Sentry initialized. *)
Definition client_up : Telemetry.t :=
  Telemetry.mk (cfg true (VString "/tmp/t.json")) (Some 0%nat) true "tool".

Definition history_up : World :=
  [ EvSentryInit (Telemetry.sentryOptions (env none) "tool");
    EvPostHogNew TELEMETRY_KEYS.posthogKey POSTHOG_URL ].

Definition write_failing : Faults := mkFaults false true false false false false false.
Definition posthog_down : Faults := mkFaults false false true false false false false.
Definition flush_failing : Faults := mkFaults false false false false false true false.
Definition submission_failing : Faults := mkFaults false false false false false false true.

(** An enabled client with neither connector up. *)
Definition client_down : Telemetry.t :=
  Telemetry.mk (cfg true (VString "/tmp/t.json")) None false "tool".

(** A record with no [configPath]. *)
Definition cfg_no_path : Value :=
  VObject PlainObject
    [ ("enabled", VBool true); ("instanceId", VString "id-1") ].

End Scenario.

(** ** Reading the history *)

Definition isConnectAttempt (ev : Event) : bool :=
  match ev with
  | EvPostHogNew _ _ => true
  | _ => false
  end.

Definition isCapture (ev : Event) : bool :=
  match ev with
  | EvPostHogCapture _ _ _ _ => true
  | _ => false
  end.

(** A call into one of the two SDKs. *)
Definition isBackendCall (ev : Event) : bool :=
  match ev with
  | EvPostHogNew _ _ | EvPostHogCapture _ _ _ _ | EvPostHogShutdown _
  | EvSentryInit _ | EvSentryCapture _ _ | EvSentryClose _ => true
  | _ => false
  end.

(** How many times [new PostHog(...)] was called. *)
Definition connectAttempts (w : World) : nat := length (filter isConnectAttempt w).

(** How many times [posthog.capture(...)] was called. *)
Definition captures (w : World) : nat := length (filter isCapture w).

Definition backendCalls (w : World) : list Event := filter isBackendCall w.

(** ** A host calling the public methods one after another *)

Inductive Op : Type :=
| OpTrackEvent (eventName : string) (properties : option Props)
| OpTrackError (error : Error) (context : option Props)
| OpUpdateConsent (enabled : bool)
| OpShutdown.

Definition perform (E : Env) (op : Op) : M (Telemetry.t * World) unit :=
  match op with
  | OpTrackEvent n p => Telemetry.trackEvent E n p
  | OpTrackError e c => Telemetry.trackError E e c
  | OpUpdateConsent b => Telemetry.updateConsent E b
  | OpShutdown => Telemetry.shutdown E
  end.

(** The host goes on to the next call whether or not the last one threw. *)
Fixpoint perform_all (E : Env) (ops : list Op) (s : Telemetry.t * World)
  : Telemetry.t * World :=
  match ops with
  | [] => s
  | op :: rest => perform_all E rest (snd (perform E op s))
  end.

Definition enablesConsent (op : Op) : bool :=
  match op with
  | OpUpdateConsent true => true
  | _ => false
  end.

(** Neither connector is held: no PostHog client object, Sentry not marked
    initialized. *)
Definition released (this : Telemetry.t) : Prop :=
  Telemetry.posthog this = None /\ Telemetry.sentryInitialized this = false.

(** [this.config.enabled] reads as a falsy value. *)
Definition disabled (this : Telemetry.t) : Prop :=
  exists en, get (Telemetry.config this) "enabled" = inr en /\ truthy en = false.

(** ** The history inside [createNew] on an interactive terminal *)

Definition promptText : string := "Would you like to enable telemetry? (y/n) ".

(** After the consent banner has been printed. *)
Definition worldAfterBanner (w : World) : World :=
  (rev (map EvConsoleLog ConfigManager.consentBanner) ++ w)%list.

(** After the answer, the uuid and the date have been obtained: the history
    in which [createNew] starts to save. *)
Definition worldBeforeSave (w : World) : World :=
  EvNewDate :: EvUuid :: EvQuestion promptText :: worldAfterBanner w.

(** The error [createNew] throws when saving fails with [e]. *)
Definition saveError (e : Error) : Error :=
  TelemetryError ("Failed to save config: " ++ toString e) "CONFIG_SAVE_ERROR".

(** The record [createNew] is about to save. *)
Definition recordToSave (E : Env) (configPath : string) (w : World) : Value :=
  ConfigManager.newConfig
    (startsWith (toLowerCase (question E (worldAfterBanner w) promptText)) "y")
    (uuidv4 E (EvQuestion promptText :: worldAfterBanner w))
    (new_Date E (EvUuid :: EvQuestion promptText :: worldAfterBanner w))
    configPath.

(** ** More readings of the history *)

Definition isSentryInit (ev : Event) : bool :=
  match ev with
  | EvSentryInit _ => true
  | _ => false
  end.

(** How many times [Sentry.init(...)] was called. *)
Definition sentryInits (w : World) : nat := length (filter isSentryInit w).

(** A call into the file system. *)
Definition isFsCall (ev : Event) : bool :=
  match ev with
  | EvFsAccess _ | EvFsReadFile _ | EvFsMkdir _ | EvFsWriteFile _ _ => true
  | _ => false
  end.

Definition fsCalls (w : World) : list Event := filter isFsCall w.

(** A method call on the PostHog client object [c]. *)
Definition usesClient (c : nat) (ev : Event) : bool :=
  match ev with
  | EvPostHogCapture c' _ _ _ | EvPostHogShutdown c' => Nat.eqb c c'
  | _ => false
  end.

(** The method calls made on the PostHog client object [c]. *)
Definition clientUses (c : nat) (w : World) : list Event := filter (usesClient c) w.

(** ** Environments for the remaining cases *)

Module Cases.

(** A Linux host whose environment variables are [vars]; the file at
    [/tmp/t.json], when [parsed] is given, exists and parses to that value;
    the terminal is interactive and the user types [answer]; SDK and write
    failures as in [f]; [Sentry.close] fails when [close_fails]. *)
Definition env (vars : string -> option string) (parsed : option Value)
    (answer : string) (f : Scenario.Faults) (close_fails : bool) : Env :=
  {| platform := "linux";
     node_version := "v20.11.0";
     env_var := vars;
     stdin_isatty := true;
     stdout_isatty := true;
     path_join := String.concat "/";
     path_dirname := fun _ => "/tmp";
     JSON_parse := fun _ => parsed;
     JSON_parse_error := fun _ => mkError "SyntaxError" "Unexpected token" None;
     JSON_stringify := fun _ => "{}";
     fs_access := fun _ _ =>
       match parsed with
       | Some _ => None
       | None => Some (Scenario.failure "ENOENT")
       end;
     fs_readFile := fun _ _ =>
       match parsed with
       | Some _ => inr "contents"
       | None => inl (Scenario.failure "ENOENT")
       end;
     fs_mkdir := fun _ _ => None;
     fs_writeFile := fun _ _ _ =>
       Scenario.fail_if (Scenario.write_fails f) "EACCES";
     question := fun _ _ => answer;
     uuidv4 := fun _ => "7d5f0c0e-0000-4000-8000-000000000001";
     new_Date := fun _ => 1700000000000%Z;
     posthog_new := fun _ _ _ =>
       Scenario.fail_if (Scenario.posthog_new_fails f) "PostHog constructor";
     posthog_capture := fun _ _ _ _ _ =>
       Scenario.fail_if (Scenario.capture_fails f) "capture";
     posthog_shutdown := fun _ _ =>
       Scenario.fail_if (Scenario.posthog_shutdown_fails f) "flush";
     sentry_init := fun _ _ =>
       Scenario.fail_if (Scenario.sentry_init_fails f) "Sentry.init";
     sentry_capture := fun _ _ _ =>
       Scenario.fail_if (Scenario.sentry_capture_fails f) "captureException";
     sentry_close := fun _ _ => Scenario.fail_if close_fails "close" |}.

(** Only [HOME] is set. *)
Definition home_only (x : string) : option string :=
  if String.eqb x "HOME" then Some "/home/u" else None.

(** [HOME] and [GITHUB_ACTIONS] are set. *)
Definition in_ci (x : string) : option string :=
  if String.eqb x "HOME" then Some "/home/u"
  else if String.eqb x "GITHUB_ACTIONS" then Some "true"
  else None.

(** Nothing is set, not even [HOME]. *)
Definition no_vars (x : string) : option string := None.

End Cases.

(** ** What a call preserves *)

(** Every property but [enabled] reads the same. *)
Definition keepsFields (c c' : Value) : Prop :=
  forall k, k <> "enabled" -> get c' k = get c k.

(** A PostHog client object [bad] that exists and that the client does not
    hold is not held afterwards either, and no method of it was called. *)
Definition leavesAlone (bad : nat) (s s' : Telemetry.t * World) : Prop :=
  Telemetry.posthog (fst s) <> Some bad ->
  bad < length (snd s) ->
  Telemetry.posthog (fst s') <> Some bad
  /\ bad < length (snd s')
  /\ clientUses bad (snd s') = clientUses bad (snd s).

(** What one call of a public method preserves. *)
Record Frame (op : Op) (s s' : Telemetry.t * World) : Prop := mkFrame {
  frame_appName : Telemetry.appName (fst s') = Telemetry.appName (fst s);
  frame_fields : keepsFields (Telemetry.config (fst s)) (Telemetry.config (fst s'));
  frame_clients : forall bad, leavesAlone bad s s';
  frame_config :
    (forall b, op <> OpUpdateConsent b) ->
    Telemetry.config (fst s') = Telemetry.config (fst s)
    /\ fsCalls (snd s') = fsCalls (snd s)
}.

Definition isUpdateConsent (op : Op) : bool :=
  match op with
  | OpUpdateConsent _ => true
  | _ => false
  end.

(** ** General facts about the embedding *)

Lemma set_config_same (this : Telemetry.t) :
  Telemetry.set_config (Telemetry.config this) this = this.
Proof. destruct this; reflexivity. Qed.

Lemma liftW_run {X A} (m : M World A) (x : X) (w : World) :
  liftW m (x, w) = (fst (m w), (x, snd (m w))).
Proof. unfold liftW; simpl; destruct (m w); reflexivity. Qed.

(** ** Consent update with no config path *)

(** C9: when [configPath] is unset (or otherwise falsy) both
    [ConfigManager.updateConsent] and [Telemetry.updateConsent] throw a
    [TelemetryError] coded [CONFIG_PATH_ERROR], and the config object, the
    client and the world are exactly what they were before the call. *)
Theorem updateConsent_no_path_throws_unchanged
    (E : Env) (enabled : bool) (this : Telemetry.t) (w : World) (cp : Value) :
  get (Telemetry.config this) "configPath" = inr cp ->
  truthy cp = false ->
  ConfigManager.updateConsent E enabled (Telemetry.config this, w)
  = (Throw (TelemetryError "No config path specified" "CONFIG_PATH_ERROR"),
     (Telemetry.config this, w))
  /\ Telemetry.updateConsent E enabled (this, w)
     = (Throw (TelemetryError "No config path specified" "CONFIG_PATH_ERROR"),
        (this, w)).
Proof.
  intros Hget Hfalsy.
  assert (Hcm : ConfigManager.updateConsent E enabled (Telemetry.config this, w)
                = (Throw (TelemetryError "No config path specified" "CONFIG_PATH_ERROR"),
                   (Telemetry.config this, w))).
  { unfold ConfigManager.updateConsent, bind, get_this, of_result; simpl.
    rewrite Hget; unfold ret; rewrite Hfalsy; reflexivity. }
  split; [exact Hcm|].
  unfold Telemetry.updateConsent, bind, Telemetry.on_config; simpl.
  rewrite Hcm, set_config_same; reflexivity.
Qed.

Lemma updateConsent_no_path_witness :
  Telemetry.updateConsent (Scenario.env Scenario.none) true
    (Telemetry.mk Scenario.cfg_no_path None false "tool", [])
  = (Throw (TelemetryError "No config path specified" "CONFIG_PATH_ERROR"),
     (Telemetry.mk Scenario.cfg_no_path None false "tool", [])).
Proof.
  apply (updateConsent_no_path_throws_unchanged (Scenario.env Scenario.none) true
           (Telemetry.mk Scenario.cfg_no_path None false "tool") [] VUndefined);
    reflexivity.
Defined.

(** ** Loading the config *)

Lemma resolveConfigPath_world (E : Env) (app : string) (custom : option string)
    (w : World) :
  snd (ConfigManager.resolveConfigPath E app custom w) = w.
Proof.
  unfold ConfigManager.resolveConfigPath, ConfigManager.getDefaultConfigPath.
  destruct custom as [p|]; [destruct (String.eqb p "")|];
    destruct (env_var E "HOME"); reflexivity.
Qed.

(** [load] is its [try] block when that returns, and [createNew] run from
    where the block stopped when it throws; the error thrown is dropped. *)
Lemma load_unfold (E : Env) (app : string) (custom : option string) (w : World)
    (path : string) :
  ConfigManager.resolveConfigPath E app custom w = (Ok path, w) ->
  ConfigManager.load E app custom w
  = match ConfigManager.readExisting E path w with
    | (Ok v, w1) => (Ok v, w1)
    | (Throw _, w1) => ConfigManager.createNew E app path w1
    end.
Proof.
  intros Hpath. unfold ConfigManager.load, bind, try_catch.
  rewrite Hpath. reflexivity.
Qed.

(** The only error [createNew] throws is the [TelemetryError] coded
    [CONFIG_SAVE_ERROR]. *)
Lemma createNew_throws_only_save_error (E : Env) (app path : string) (w w' : World)
    (e : Error) :
  ConfigManager.createNew E app path w = (Throw e, w') ->
  name e = "TelemetryError" /\ code e = Some "CONFIG_SAVE_ERROR".
Proof.
  unfold ConfigManager.createNew.
  destruct (isInteractive E); simpl.
  - unfold bind, try_catch, ret, throw, promptYesNo, ask, mkdir, writeFile, call,
      console_log; simpl.
    match goal with |- context [fs_mkdir E ?w0 ?d] => destruct (fs_mkdir E w0 d) end.
    + intros H; inversion H; subst; split; reflexivity.
    + match goal with |- context [fs_writeFile E ?w0 ?p ?c] =>
        destruct (fs_writeFile E w0 p c) end.
      * intros H; inversion H; subst; split; reflexivity.
      * intros H; inversion H.
  - unfold bind, ask, ret; simpl. intros H; inversion H.
Qed.

(** C10: whatever value [JSON.parse] makes of the file, [load] returns that
    value itself; no field is looked at, so a value without [enabled],
    [instanceId], [createdAt] or [configPath], or one that is not an object
    at all, comes back as the config. *)
Theorem load_returns_parsed_value_as_is
    (E : Env) (app : string) (custom : option string) (w : World)
    (path content : string) (v : Value) :
  ConfigManager.resolveConfigPath E app custom w = (Ok path, w) ->
  fs_access E w path = None ->
  fs_readFile E (EvFsAccess path :: w) path = inr content ->
  JSON_parse E content = Some v ->
  ConfigManager.load E app custom w
  = (Ok v, EvFsReadFile path :: EvFsAccess path :: w).
Proof.
  intros Hpath Hacc Hread Hparse.
  rewrite (load_unfold E app custom w path Hpath).
  unfold ConfigManager.readExisting, bind, access, call, readFile, parse.
  rewrite Hacc, Hread, Hparse. reflexivity.
Qed.

Lemma load_returns_parsed_value_witness :
  ConfigManager.load (Scenario.env Scenario.none) "tool" (Some "/tmp/odd.json") []
  = (Ok (VObject ArrayObject []),
     [EvFsReadFile "/tmp/odd.json"; EvFsAccess "/tmp/odd.json"]).
Proof.
  apply (load_returns_parsed_value_as_is (Scenario.env Scenario.none) "tool"
           (Some "/tmp/odd.json") [] "/tmp/odd.json" "[]" (VObject ArrayObject []));
    reflexivity.
Defined.

(** C7: when the file cannot be accessed, cannot be read, or does not parse,
    [load] is [createNew] run on the resolved path; the read or parse error is
    dropped, and the only error [load] can then raise is [createNew]'s own
    [CONFIG_SAVE_ERROR]. *)
Theorem load_read_failure_falls_through_to_createNew
    (E : Env) (app : string) (custom : option string) (w : World) (path : string) :
  ConfigManager.resolveConfigPath E app custom w = (Ok path, w) ->
  (forall e, fs_access E w path = Some e ->
     ConfigManager.load E app custom w
     = ConfigManager.createNew E app path (EvFsAccess path :: w))
  /\ (forall e, fs_access E w path = None ->
        fs_readFile E (EvFsAccess path :: w) path = inl e ->
        ConfigManager.load E app custom w
        = ConfigManager.createNew E app path
            (EvFsReadFile path :: EvFsAccess path :: w))
  /\ (forall content, fs_access E w path = None ->
        fs_readFile E (EvFsAccess path :: w) path = inr content ->
        JSON_parse E content = None ->
        ConfigManager.load E app custom w
        = ConfigManager.createNew E app path
            (EvFsReadFile path :: EvFsAccess path :: w))
  /\ (forall e0 w1 e w',
        ConfigManager.readExisting E path w = (Throw e0, w1) ->
        ConfigManager.load E app custom w = (Throw e, w') ->
        name e = "TelemetryError" /\ code e = Some "CONFIG_SAVE_ERROR").
Proof.
  intros Hpath.
  pose proof (load_unfold E app custom w path Hpath) as Hload.
  split; [|split; [|split]].
  - intros e Hacc. rewrite Hload.
    unfold ConfigManager.readExisting, bind, access, call. rewrite Hacc. reflexivity.
  - intros e Hacc Hread. rewrite Hload.
    unfold ConfigManager.readExisting, bind, access, call, readFile.
    rewrite Hacc, Hread. reflexivity.
  - intros content Hacc Hread Hparse. rewrite Hload.
    unfold ConfigManager.readExisting, bind, access, call, readFile, parse.
    rewrite Hacc, Hread, Hparse. reflexivity.
  - intros e0 w1 e w' Hread Hthrow. rewrite Hload, Hread in Hthrow.
    exact (createNew_throws_only_save_error E app path w1 w' e Hthrow).
Qed.

Lemma load_read_failure_witness :
  ConfigManager.load (Scenario.env Scenario.none) "tool" (Some "/tmp/t.json") []
  = ConfigManager.createNew (Scenario.env Scenario.none) "tool" "/tmp/t.json"
      [EvFsAccess "/tmp/t.json"].
Proof.
  apply (proj1 (load_read_failure_falls_through_to_createNew
                  (Scenario.env Scenario.none) "tool" (Some "/tmp/t.json") []
                  "/tmp/t.json" eq_refl)
               (Scenario.failure "ENOENT")).
  reflexivity.
Defined.

(** ** What each method does, case by case *)

Ltac run :=
  unfold bind, try_catch, get_this, modify_this, of_result, liftW, call, ask,
    console_error, ret, throw; simpl.

(** A value one property of which can be read lets every property be read. *)
Lemma get_total (v : Value) (k k' : string) (x : Value) :
  get v k = inr x -> exists x', get v k' = inr x'.
Proof.
  destruct v; simpl; try discriminate; intros _; eauto.
  destruct (lookup k' fields); eauto.
Qed.

Lemma trackEvent_disabled (E : Env) (this : Telemetry.t) (w : World)
    (n : string) (p : option Props) (en : Value) :
  get (Telemetry.config this) "enabled" = inr en ->
  truthy en = false ->
  Telemetry.trackEvent E n p (this, w) = (Ok tt, (this, w)).
Proof.
  intros Hen Hfalsy. unfold Telemetry.trackEvent. run.
  rewrite Hen; simpl. rewrite Hfalsy. reflexivity.
Qed.

Lemma trackEvent_connected (E : Env) (this : Telemetry.t) (w : World)
    (n : string) (p : option Props) (en id : Value) (client : nat) :
  get (Telemetry.config this) "enabled" = inr en ->
  truthy en = true ->
  get (Telemetry.config this) "instanceId" = inr id ->
  Telemetry.posthog this = Some client ->
  let props := Telemetry.enrichedProperties E
                 (match p with Some p => p | None => [] end) id in
  Telemetry.trackEvent E n p (this, w)
  = match posthog_capture E w client id n props with
    | None => (Ok tt, (this, EvPostHogCapture client id n props :: w))
    | Some e =>
        (Throw (TelemetryError ("Failed to track event: " ++ toString e)
                               "EVENT_TRACKING_ERROR"),
         (this, EvPostHogCapture client id n props :: w))
    end.
Proof.
  intros Hen Htruthy Hid Hclient props.
  destruct this as [cfg ph si app]; simpl in Hen, Hid, Hclient; subst ph.
  unfold Telemetry.trackEvent, Telemetry.capture. run.
  rewrite Hen; simpl. rewrite Htruthy; simpl.
  rewrite Hid; simpl. fold props.
  destruct (posthog_capture E w client id n props); reflexivity.
Qed.

Lemma trackEvent_disconnected (E : Env) (this : Telemetry.t) (w : World)
    (n : string) (p : option Props) (en : Value) :
  get (Telemetry.config this) "enabled" = inr en ->
  truthy en = true ->
  Telemetry.posthog this = None ->
  Telemetry.trackEvent E n p (this, w)
  = match posthog_new E w TELEMETRY_KEYS.posthogKey POSTHOG_URL with
    | Some e =>
        (Ok tt,
         (this,
          EvConsoleError "Failed to reconnect to PostHog:" e
          :: EvPostHogNew TELEMETRY_KEYS.posthogKey POSTHOG_URL :: w))
    | None =>
        Telemetry.trackEvent E n p
          (Telemetry.set_posthog (Some (length w)) this,
           EvPostHogNew TELEMETRY_KEYS.posthogKey POSTHOG_URL :: w)
    end.
Proof.
  intros Hen Htruthy Hnone.
  destruct this as [cfg ph si app]; simpl in Hen, Hnone; subst ph.
  unfold Telemetry.trackEvent, Telemetry.reconnectPostHog, Telemetry.connected,
    Telemetry.new_PostHog.
  run.
  repeat (progress (try rewrite Hen; try rewrite Htruthy; simpl)).
  destruct (posthog_new E w TELEMETRY_KEYS.posthogKey POSTHOG_URL); simpl;
    repeat (progress (try rewrite Hen; try rewrite Htruthy; simpl)); reflexivity.
Qed.

Lemma trackError_disabled (E : Env) (this : Telemetry.t) (w : World)
    (err : Error) (c : option Props) (en : Value) :
  get (Telemetry.config this) "enabled" = inr en ->
  truthy en = false ->
  Telemetry.trackError E err c (this, w) = (Ok tt, (this, w)).
Proof.
  intros Hen Hfalsy. unfold Telemetry.trackError. run.
  rewrite Hen; simpl. rewrite Hfalsy. reflexivity.
Qed.

Lemma trackError_connected (E : Env) (this : Telemetry.t) (w : World)
    (err : Error) (c : option Props) (en id : Value) :
  get (Telemetry.config this) "enabled" = inr en ->
  truthy en = true ->
  get (Telemetry.config this) "instanceId" = inr id ->
  Telemetry.sentryInitialized this = true ->
  let x := Telemetry.extras E (match c with Some c => c | None => [] end) id in
  Telemetry.trackError E err c (this, w)
  = match sentry_capture E w err x with
    | None => (Ok tt, (this, EvSentryCapture err x :: w))
    | Some e => (Throw e, (this, EvSentryCapture err x :: w))
    end.
Proof.
  intros Hen Htruthy Hid Hinit x.
  destruct this as [cfg ph si app]; simpl in Hen, Hid, Hinit; subst si.
  unfold Telemetry.trackError, Telemetry.withScope_capture. run.
  rewrite Hen; simpl. rewrite Htruthy; simpl.
  rewrite Hid; simpl. fold x.
  destruct (sentry_capture E w err x); reflexivity.
Qed.

Lemma trackError_disconnected (E : Env) (this : Telemetry.t) (w : World)
    (err : Error) (c : option Props) (en : Value) :
  get (Telemetry.config this) "enabled" = inr en ->
  truthy en = true ->
  Telemetry.sentryInitialized this = false ->
  let opts := Telemetry.sentryOptions E (Telemetry.appName this) in
  Telemetry.trackError E err c (this, w)
  = match sentry_init E w opts with
    | Some e =>
        (Ok tt,
         (this,
          EvConsoleError "Failed to reconnect to Sentry:" e
          :: EvSentryInit opts :: w))
    | None =>
        Telemetry.trackError E err c
          (Telemetry.set_sentryInitialized true this, EvSentryInit opts :: w)
    end.
Proof.
  intros Hen Htruthy Hinit opts.
  destruct this as [cfg ph si app]; simpl in Hen, Hinit, opts; subst si.
  unfold Telemetry.trackError, Telemetry.reconnectSentry, Telemetry.Sentry_init.
  run. subst opts.
  repeat (progress (try rewrite Hen; try rewrite Htruthy; simpl)).
  destruct (sentry_init E w (Telemetry.sentryOptions E app)); simpl;
    repeat (progress (try rewrite Hen; try rewrite Htruthy; simpl)); reflexivity.
Qed.

(** ** Tracking an event while disconnected *)

(** C5: on an enabled client with no PostHog client object, [trackEvent]
    calls the PostHog constructor exactly once.  If the client is still
    without one afterwards, the constructor threw, [trackEvent] has returned
    normally having only logged the failure, the client is as it was,
    [capture] was not called, and what is left behind does not depend on the
    event: nothing of it is kept for a later call. *)
Theorem trackEvent_disconnected_reconnects_once_then_drops
    (E : Env) (this : Telemetry.t) (w : World) (eventName : string)
    (properties : option Props) (en : Value) :
  get (Telemetry.config this) "enabled" = inr en ->
  truthy en = true ->
  Telemetry.posthog this = None ->
  let r := Telemetry.trackEvent E eventName properties (this, w) in
  connectAttempts (snd (snd r)) = S (connectAttempts w)
  /\ (Telemetry.posthog (fst (snd r)) = None ->
      exists e,
        posthog_new E w TELEMETRY_KEYS.posthogKey POSTHOG_URL = Some e
        /\ r = (Ok tt,
                (this,
                 EvConsoleError "Failed to reconnect to PostHog:" e
                 :: EvPostHogNew TELEMETRY_KEYS.posthogKey POSTHOG_URL :: w))
        /\ captures (snd (snd r)) = captures w
        /\ forall eventName' properties',
             Telemetry.trackEvent E eventName' properties' (this, w) = r).
Proof.
  intros Hen Htruthy Hnone r.
  pose proof (fun n p => trackEvent_disconnected E this w n p en Hen Htruthy Hnone)
    as Hrun.
  destruct (get_total _ _ "instanceId" _ Hen) as [id Hid].
  subst r. rewrite (Hrun eventName properties).
  destruct (posthog_new E w TELEMETRY_KEYS.posthogKey POSTHOG_URL) as [e|] eqn:Hnew.
  - split; [reflexivity|]. intros _. exists e.
    split; [reflexivity|]. split; [reflexivity|]. split; [reflexivity|].
    intros n p. rewrite (Hrun n p). reflexivity.
  - rewrite (trackEvent_connected E _ _ eventName properties en id (length w));
      try (destruct this; assumption); try reflexivity.
    simpl.
    match goal with
    | |- context [posthog_capture E ?w0 ?c ?d ?n ?p] =>
        destruct (posthog_capture E w0 c d n p)
    end; simpl; (split; [reflexivity | intros H; discriminate H]).
Qed.

Lemma trackEvent_disconnected_witness :
  Telemetry.trackEvent (Scenario.env Scenario.posthog_down)
    "command_executed" (Some [("command", VString "deploy")])
    (Scenario.client_down, [])
  = (Ok tt,
     (Scenario.client_down,
      [ EvConsoleError "Failed to reconnect to PostHog:"
          (Scenario.failure "PostHog constructor");
        EvPostHogNew TELEMETRY_KEYS.posthogKey POSTHOG_URL ])).
Proof.
  destruct (proj2 (trackEvent_disconnected_reconnects_once_then_drops
                     (Scenario.env Scenario.posthog_down)
                     Scenario.client_down [] "command_executed"
                     (Some [("command", VString "deploy")]) (VBool true)
                     eq_refl eq_refl eq_refl) eq_refl)
    as [e [Hnew [Hr _]]].
  injection Hnew as <-. exact Hr.
Defined.

(** ** Properties of objects *)

Lemma lookup_assign_same (k : string) (v : Value) (ps : Props) :
  lookup k (assign k v ps) = Some v.
Proof.
  induction ps as [|[k' v'] rest IH]; simpl.
  - rewrite String.eqb_refl. reflexivity.
  - destruct (String.eqb k k') eqn:Hk; simpl; rewrite Hk; [reflexivity | exact IH].
Qed.

Lemma lookup_assign_other (k k' : string) (v : Value) (ps : Props) :
  String.eqb k k' = false ->
  lookup k (assign k' v ps) = lookup k ps.
Proof.
  intros Hne. induction ps as [|[k0 v0] rest IH]; simpl.
  - rewrite Hne. reflexivity.
  - destruct (String.eqb k' k0) eqn:Hk0; simpl.
    + apply String.eqb_eq in Hk0; subst k0. rewrite Hne. reflexivity.
    + rewrite IH. reflexivity.
Qed.

(** A value with a truthy property is an object. *)
Lemma truthy_property_object (v : Value) (k : string) (x : Value) :
  get v k = inr x -> truthy x = true ->
  exists kind fields, v = VObject kind fields /\ lookup k fields = Some x.
Proof.
  destruct v; simpl; intros Hget Htruthy; try discriminate;
    try (injection Hget as <-; discriminate Htruthy).
  exists k0, fields. split; [reflexivity|].
  destruct (lookup k fields) as [y|].
  - injection Hget as <-. reflexivity.
  - injection Hget as <-. discriminate Htruthy.
Qed.

(** ** Consent update, case by case *)

Lemma ConfigManager_updateConsent_no_path (E : Env) (b : bool) (cfg : Value)
    (w : World) (cp : Value) :
  get cfg "configPath" = inr cp ->
  truthy cp = false ->
  ConfigManager.updateConsent E b (cfg, w)
  = (Throw (TelemetryError "No config path specified" "CONFIG_PATH_ERROR"),
     (cfg, w)).
Proof.
  intros Hget Hfalsy. unfold ConfigManager.updateConsent. run.
  rewrite Hget. rewrite Hfalsy. reflexivity.
Qed.

Lemma Telemetry_updateConsent_no_path (E : Env) (b : bool) (this : Telemetry.t)
    (w : World) (cp : Value) :
  get (Telemetry.config this) "configPath" = inr cp ->
  truthy cp = false ->
  Telemetry.updateConsent E b (this, w)
  = (Throw (TelemetryError "No config path specified" "CONFIG_PATH_ERROR"),
     (this, w)).
Proof.
  intros Hget Hfalsy.
  unfold Telemetry.updateConsent, bind, Telemetry.on_config; simpl.
  rewrite (ConfigManager_updateConsent_no_path E b _ w cp Hget Hfalsy).
  rewrite set_config_same. reflexivity.
Qed.

(** With a path, the flag is set on the object and the whole object written
    to that path; the object keeps the new flag even when the write fails. *)
Lemma ConfigManager_updateConsent_with_path (E : Env) (b : bool)
    (kind : ObjKind) (fields : Props) (w : World) (cp : Value) :
  lookup "configPath" fields = Some cp ->
  truthy cp = true ->
  let cfg' := VObject kind (assign "enabled" (VBool b) fields) in
  let ev := EvFsWriteFile cp (JSON_stringify E cfg') in
  ConfigManager.updateConsent E b (VObject kind fields, w)
  = match fs_writeFile E w cp (JSON_stringify E cfg') with
    | None => (Ok tt, (cfg', ev :: w))
    | Some e => (Throw e, (cfg', ev :: w))
    end.
Proof.
  intros Hcp Htruthy cfg' ev.
  unfold ConfigManager.updateConsent, writeFile. run.
  rewrite Hcp; simpl. rewrite Htruthy; simpl.
  rewrite (lookup_assign_other "configPath" "enabled" _ _ eq_refl), Hcp.
  subst cfg' ev. simpl.
  destruct (fs_writeFile E w cp
              (JSON_stringify E (VObject kind (assign "enabled" (VBool b) fields))));
    reflexivity.
Qed.

(** ** Reconnection never throws on a readable config *)



Lemma assign_assign_same (k : string) (v : Value) (ps : Props) :
  assign k v (assign k v ps) = assign k v ps.
Proof.
  induction ps as [|[k' v'] rest IH]; simpl.
  - rewrite String.eqb_refl. reflexivity.
  - destruct (String.eqb k k') eqn:Hk; simpl; rewrite Hk; [reflexivity|].
    rewrite IH. reflexivity.
Qed.

(** [Telemetry.updateConsent] on a config with a path: the write, then, if it
    returned, the two reconnections when consent is given. *)
Lemma Telemetry_updateConsent_with_path (E : Env) (b : bool) (kind : ObjKind)
    (fields : Props) (ph : option nat) (si : bool) (app : string) (w : World)
    (cp : Value) :
  lookup "configPath" fields = Some cp ->
  truthy cp = true ->
  let cfg' := VObject kind (assign "enabled" (VBool b) fields) in
  let ev := EvFsWriteFile cp (JSON_stringify E cfg') in
  Telemetry.updateConsent E b (Telemetry.mk (VObject kind fields) ph si app, w)
  = match fs_writeFile E w cp (JSON_stringify E cfg') with
    | Some e => (Throw e, (Telemetry.mk cfg' ph si app, ev :: w))
    | None =>
        (if b
         then Telemetry.promise_all2 (Telemetry.reconnectPostHog E)
                                     (Telemetry.reconnectSentry E)
         else ret tt) (Telemetry.mk cfg' ph si app, ev :: w)
    end.
Proof.
  intros Hcp Htruthy cfg' ev.
  unfold Telemetry.updateConsent, bind at 1, Telemetry.on_config. simpl.
  rewrite (ConfigManager_updateConsent_with_path E b kind fields w cp Hcp Htruthy).
  fold cfg'. fold ev.
  destruct (fs_writeFile E w cp (JSON_stringify E cfg')); [reflexivity|].
  unfold Telemetry.set_config; simpl. run.
  rewrite assign_assign_same. fold cfg'. reflexivity.
Qed.



(** ** Initialization *)

(** [createNew] on an interactive terminal: banner, question, then the save. *)
Lemma createNew_interactive (E : Env) (app path : string) (w : World) :
  isInteractive E = true ->
  let w2 := worldBeforeSave w in
  let dir := path_dirname E path in
  let cfg := recordToSave E path w in
  let content := JSON_stringify E cfg in
  ConfigManager.createNew E app path w
  = match fs_mkdir E w2 dir with
    | Some e => (Throw (saveError e), EvFsMkdir dir :: w2)
    | None =>
        match fs_writeFile E (EvFsMkdir dir :: w2) (VString path) content with
        | Some e =>
            (Throw (saveError e),
             EvFsWriteFile (VString path) content :: EvFsMkdir dir :: w2)
        | None =>
            (Ok cfg, EvFsWriteFile (VString path) content :: EvFsMkdir dir :: w2)
        end
    end.
Proof.
  intros Hint w2 dir cfg content.
  unfold ConfigManager.createNew. rewrite Hint. simpl.
  unfold promptYesNo, mkdir, writeFile, console_log. run.
  fold promptText. subst content cfg w2 dir.
  unfold recordToSave, worldBeforeSave, worldAfterBanner, saveError. simpl.
  match goal with |- context [fs_mkdir E ?w0 ?d] => destruct (fs_mkdir E w0 d) end;
    [reflexivity|].
  match goal with |- context [fs_writeFile E ?w0 ?x ?c] =>
    destruct (fs_writeFile E w0 x c) end; reflexivity.
Qed.

(** [initialize] has no handler around [load]. *)
Lemma initialize_load_throws (E : Env) (app : string) (custom : option string)
    (w w1 : World) (e : Error) :
  ConfigManager.load E app custom w = (Throw e, w1) ->
  Telemetry.initialize E app custom w = (Throw e, w1).
Proof.
  intros Hload. unfold Telemetry.initialize, bind. rewrite Hload. reflexivity.
Qed.

(** Once [load] has returned a readable config, [initialize] returns a
    client, whatever the two SDKs do. *)
Lemma initialize_after_load (E : Env) (app : string) (custom : option string)
    (w w1 : World) (cfg en : Value) :
  ConfigManager.load E app custom w = (Ok cfg, w1) ->
  get cfg "enabled" = inr en ->
  exists this w',
    Telemetry.initialize E app custom w = (Ok this, w')
    /\ Telemetry.config this = cfg
    /\ (truthy en = false ->
        this = Telemetry.mk cfg None false app /\ w' = w1).
Proof.
  intros Hload Hen.
  unfold Telemetry.initialize, bind at 1. rewrite Hload.
  unfold Telemetry.new_PostHog, Telemetry.Sentry_init. run.
  rewrite Hen; simpl.
  destruct (truthy en); simpl.
  - destruct (posthog_new E w1 TELEMETRY_KEYS.posthogKey POSTHOG_URL); simpl;
      match goal with |- context [sentry_init E ?w0 ?o] =>
        destruct (sentry_init E w0 o) end; simpl;
      eexists _, _; (split; [reflexivity | split; [reflexivity | discriminate]]).
  - eexists _, _. split; [reflexivity|]. split; [reflexivity|]. intros _.
    split; reflexivity.
Qed.

(** C2, as the code has it: when the file cannot be read, the terminal is
    interactive, and creating the directory or writing the new record fails
    with [e], [initialize] raises the [TelemetryError] coded
    [CONFIG_SAVE_ERROR] that [createNew] threw; no client is returned. *)
Theorem initialize_save_failure_raises_ConfigSaveError
    (E : Env) (app : string) (custom : option string) (w w1 : World)
    (path : string) (e0 e : Error) :
  ConfigManager.resolveConfigPath E app custom w = (Ok path, w) ->
  ConfigManager.readExisting E path w = (Throw e0, w1) ->
  isInteractive E = true ->
  let w2 := worldBeforeSave w1 in
  let dir := path_dirname E path in
  let content := JSON_stringify E (recordToSave E path w1) in
  fs_mkdir E w2 dir = Some e
  \/ (fs_mkdir E w2 dir = None
      /\ fs_writeFile E (EvFsMkdir dir :: w2) (VString path) content = Some e) ->
  exists w',
    Telemetry.initialize E app custom w = (Throw (saveError e), w')
    /\ name (saveError e) = "TelemetryError"
    /\ code (saveError e) = Some "CONFIG_SAVE_ERROR".
Proof.
  intros Hpath Hread Hint w2 dir content Hfail.
  assert (Hload : ConfigManager.load E app custom w
                  = ConfigManager.createNew E app path w1).
  { rewrite (load_unfold E app custom w path Hpath), Hread. reflexivity. }
  rewrite (createNew_interactive E app path w1 Hint) in Hload.
  fold w2 dir content in Hload.
  destruct Hfail as [Hmk | [Hmk Hwr]].
  - rewrite Hmk in Hload. eexists.
    split; [apply initialize_load_throws; exact Hload | split; reflexivity].
  - rewrite Hmk, Hwr in Hload. eexists.
    split; [apply initialize_load_throws; exact Hload | split; reflexivity].
Qed.

Lemma initialize_save_failure_witness :
  exists w',
    Telemetry.initialize (Scenario.env Scenario.write_failing) "tool"
      (Some "/tmp/t.json") []
    = (Throw (saveError (Scenario.failure "EACCES")), w')
    /\ name (saveError (Scenario.failure "EACCES")) = "TelemetryError"
    /\ code (saveError (Scenario.failure "EACCES")) = Some "CONFIG_SAVE_ERROR".
Proof.
  apply (initialize_save_failure_raises_ConfigSaveError
           (Scenario.env Scenario.write_failing) "tool" (Some "/tmp/t.json")
           [] [EvFsAccess "/tmp/t.json"] "/tmp/t.json"
           (Scenario.failure "ENOENT") (Scenario.failure "EACCES")).
  - reflexivity.
  - reflexivity.
  - reflexivity.
  - right. split; reflexivity.
Defined.

(** C2 as stated fails: no config on disk, an interactive terminal, the user
    answers [y], the write is refused; [initialize] ends in the
    [CONFIG_SAVE_ERROR], not in a client. *)
Lemma initialize_save_failure_returns_no_client :
  fst (Telemetry.initialize (Scenario.env Scenario.write_failing) "tool"
         (Some "/tmp/t.json") [])
  = Throw (TelemetryError "Failed to save config: Error: EACCES" "CONFIG_SAVE_ERROR")
  /\ (forall this,
        fst (Telemetry.initialize (Scenario.env Scenario.write_failing) "tool"
               (Some "/tmp/t.json") [])
        <> Ok this).
Proof.
  split; [reflexivity | intros this H; discriminate H].
Qed.

(** ** Which failures reach the caller *)




(** ** Reporting an error *)

(** C6, as the code has it: [trackError] returns normally on a disabled
    client and when the reconnection to Sentry fails (which is only logged);
    an error reaches the caller only if the submission call itself threw it. *)
Theorem trackError_raises_only_what_submission_throws
    (E : Env) (this : Telemetry.t) (w : World) (err : Error)
    (context : option Props) (en : Value) :
  get (Telemetry.config this) "enabled" = inr en ->
  let r := Telemetry.trackError E err context (this, w) in
  let opts := Telemetry.sentryOptions E (Telemetry.appName this) in
  (truthy en = false -> r = (Ok tt, (this, w)))
  /\ (truthy en = true ->
      Telemetry.sentryInitialized this = false ->
      forall e, sentry_init E w opts = Some e ->
        r = (Ok tt,
             (this,
              EvConsoleError "Failed to reconnect to Sentry:" e
              :: EvSentryInit opts :: w)))
  /\ (forall e, fst r = Throw e ->
        exists w0 x,
          snd (snd r) = EvSentryCapture err x :: w0
          /\ sentry_capture E w0 err x = Some e).
Proof.
  intros Hen r opts.
  destruct (get_total _ _ "instanceId" _ Hen) as [id Hid].
  split; [|split].
  - intros Hfalsy. apply (trackError_disabled E this w err context en Hen Hfalsy).
  - intros Htruthy Hinit e Hfail. subst r.
    rewrite (trackError_disconnected E this w err context en Hen Htruthy Hinit).
    fold opts. rewrite Hfail. reflexivity.
  - intros e. subst r.
    destruct (truthy en) eqn:Htruthy.
    2:{ rewrite (trackError_disabled E this w err context en Hen Htruthy).
        discriminate. }
    destruct (Telemetry.sentryInitialized this) eqn:Hinit.
    + rewrite (trackError_connected E this w err context en id Hen Htruthy Hid Hinit).
      destruct (sentry_capture E w err _) as [e'|] eqn:Hcap; simpl.
      * intros H; injection H as <-. eexists _, _. split; [reflexivity | exact Hcap].
      * discriminate.
    + rewrite (trackError_disconnected E this w err context en Hen Htruthy Hinit).
      fold opts. destruct (sentry_init E w opts); [discriminate|].
      rewrite (trackError_connected E _ _ err context en id);
        try (destruct this; assumption); try reflexivity.
      destruct (sentry_capture E _ err _) as [e'|] eqn:Hcap; simpl.
      * intros H; injection H as <-. eexists _, _. split; [reflexivity | exact Hcap].
      * discriminate.
Qed.

Lemma trackError_reconnect_failure_witness :
  Telemetry.trackError
    (Scenario.env (Scenario.mkFaults false false false true false false false))
    (Scenario.failure "boom") None (Scenario.client_down, [])
  = (Ok tt,
     (Scenario.client_down,
      [ EvConsoleError "Failed to reconnect to Sentry:" (Scenario.failure "Sentry.init");
        EvSentryInit (Telemetry.sentryOptions (Scenario.env Scenario.none) "tool") ])).
Proof.
  apply (proj1 (proj2 (trackError_raises_only_what_submission_throws
                  (Scenario.env (Scenario.mkFaults false false false true false false false))
                  Scenario.client_down [] (Scenario.failure "boom") None
                  (VBool true) eq_refl))
           eq_refl eq_refl (Scenario.failure "Sentry.init") eq_refl).
Defined.

(** C6 as stated fails: on a connected client whose submission to Sentry
    throws, [trackError] raises that error to its caller, and logs nothing. *)
Lemma trackError_propagates_submission_failure :
  Telemetry.trackError (Scenario.env Scenario.submission_failing)
    (Scenario.failure "boom") (Some [("command", VString "deploy")])
    (Scenario.client_up, Scenario.history_up)
  = (Throw (Scenario.failure "captureException"),
     (Scenario.client_up,
      EvSentryCapture (Scenario.failure "boom")
        [ ("command", VString "deploy"); ("platform", VString "linux");
          ("version", VString "1.0.0"); ("instanceId", VString "id-1") ]
      :: Scenario.history_up)).
Proof. reflexivity. Qed.

(** ** After shutdown *)

Lemma shutdown_returned_released (E : Env) (this this1 : Telemetry.t)
    (w w1 : World) :
  Telemetry.shutdown E (this, w) = (Ok tt, (this1, w1)) ->
  released this1 /\ Telemetry.config this1 = Telemetry.config this.
Proof.
  destruct this as [cfg [client|] [|] app];
    unfold Telemetry.shutdown; run;
    repeat match goal with
           | |- context [posthog_shutdown E ?w0 ?c] =>
               destruct (posthog_shutdown E w0 c); simpl
           | |- context [sentry_close E ?w0 ?z] =>
               destruct (sentry_close E w0 z); simpl
           end;
    intros H; inversion H; subst; repeat split.
Qed.

Lemma shutdown_released_noop (E : Env) (this : Telemetry.t) (w : World) :
  released this ->
  Telemetry.shutdown E (this, w) = (Ok tt, (this, w)).
Proof.
  intros [Hph Hsi]. destruct this as [cfg ph si app]; simpl in Hph, Hsi; subst.
  reflexivity.
Qed.

(** One call on a disabled, released client that does not give consent:
    still disabled, still released, no call into either SDK. *)
Lemma perform_disabled_released (E : Env) (op : Op) (this : Telemetry.t)
    (w : World) :
  disabled this -> released this -> enablesConsent op = false ->
  disabled (fst (snd (perform E op (this, w))))
  /\ released (fst (snd (perform E op (this, w))))
  /\ backendCalls (snd (snd (perform E op (this, w)))) = backendCalls w.
Proof.
  intros Hdis Hrel Hop.
  destruct op as [n p | err c | b |]; simpl.
  - destruct Hdis as [en [Hen Hfalsy]].
    rewrite (trackEvent_disabled E this w n p en Hen Hfalsy); simpl.
    split; [exists en; split; assumption | split; [assumption | reflexivity]].
  - destruct Hdis as [en [Hen Hfalsy]].
    rewrite (trackError_disabled E this w err c en Hen Hfalsy); simpl.
    split; [exists en; split; assumption | split; [assumption | reflexivity]].
  - destruct b; [discriminate Hop|].
    destruct Hdis as [en [Hen Hfalsy]].
    destruct (get_total _ _ "configPath" _ Hen) as [cp Hcp].
    destruct (truthy cp) eqn:Htruthy.
    + destruct (truthy_property_object _ _ cp Hcp Htruthy)
        as [kind [fields [Hcfg Hlook]]].
      destruct this as [cfg ph si app]; simpl in Hcfg; subst cfg.
      rewrite (Telemetry_updateConsent_with_path E false kind fields ph si app w
                 cp Hlook Htruthy).
      destruct (fs_writeFile E w cp _); simpl;
        (split; [exists (VBool false); simpl; rewrite lookup_assign_same;
                 split; reflexivity
                | split; [exact Hrel | reflexivity]]).
    + rewrite (Telemetry_updateConsent_no_path E false this w cp Hcp Htruthy); simpl.
      split; [exists en; split; assumption | split; [assumption | reflexivity]].
  - rewrite (shutdown_released_noop E this w Hrel); simpl.
    split; [assumption | split; [assumption | reflexivity]].
Qed.

Lemma perform_all_disabled_released (E : Env) (ops : list Op) :
  forall (this : Telemetry.t) (w : World),
    disabled this -> released this ->
    forallb (fun op => negb (enablesConsent op)) ops = true ->
    released (fst (perform_all E ops (this, w)))
    /\ backendCalls (snd (perform_all E ops (this, w))) = backendCalls w.
Proof.
  induction ops as [|op rest IH]; intros this w Hdis Hrel Hops; simpl.
  - split; [assumption | reflexivity].
  - simpl in Hops. apply andb_prop in Hops. destruct Hops as [Hop Hrest].
    apply negb_true_iff in Hop.
    destruct (perform_disabled_released E op this w Hdis Hrel Hop)
      as [Hdis' [Hrel' Hcalls]].
    destruct (snd (perform E op (this, w))) as [this' w'] eqn:Hs; simpl in *.
    destruct (IH this' w' Hdis' Hrel' Hrest) as [Hfinal Hcalls'].
    split; [exact Hfinal | congruence].
Qed.

(** C3 as stated fails: on an enabled client, the [trackEvent] and
    [trackError] that follow [shutdown] construct a new PostHog client,
    initialize Sentry again, and dispatch through both. *)
Lemma shutdown_then_track_reconnects_and_dispatches :
  perform_all (Scenario.env Scenario.none)
    [ OpShutdown; OpTrackEvent "x" None;
      OpTrackError (Scenario.failure "boom") None ]
    (Scenario.client_up, Scenario.history_up)
  = (Telemetry.mk (Scenario.cfg true (VString "/tmp/t.json")) (Some 4%nat) true "tool",
     [ EvSentryCapture (Scenario.failure "boom")
         [ ("platform", VString "linux"); ("version", VString "1.0.0");
           ("instanceId", VString "id-1") ];
       EvSentryInit (Telemetry.sentryOptions (Scenario.env Scenario.none) "tool");
       EvPostHogCapture 4 (VString "id-1") "x"
         [ ("distinct_id", VString "id-1"); ("platform", VString "linux");
           ("version", VString "1.0.0"); ("node_version", VString "v20.11.0") ];
       EvPostHogNew TELEMETRY_KEYS.posthogKey POSTHOG_URL;
       EvSentryClose 2000;
       EvPostHogShutdown 0;
       EvSentryInit (Telemetry.sentryOptions (Scenario.env Scenario.none) "tool");
       EvPostHogNew TELEMETRY_KEYS.posthogKey POSTHOG_URL ]).
Proof. reflexivity. Qed.

(** ** What is sent of the caller's properties *)

Lemma assign_fresh (k : string) (v : Value) (ps : Props) :
  ~ In k (map fst ps) ->
  assign k v ps = (ps ++ [(k, v)])%list.
Proof.
  induction ps as [|[k' v'] rest IH]; simpl; intros Hfresh.
  - reflexivity.
  - destruct (String.eqb k k') eqn:Hk.
    + apply String.eqb_eq in Hk. exfalso. apply Hfresh. left. symmetry. exact Hk.
    + rewrite IH; [reflexivity|]. intros Hin. apply Hfresh. right. exact Hin.
Qed.

Lemma spread_distinct (ps acc : Props) :
  NoDup (map fst (acc ++ ps)%list) ->
  spread ps acc = (acc ++ ps)%list.
Proof.
  revert acc. induction ps as [|[k v] rest IH]; intros acc Hnd.
  - simpl. rewrite app_nil_r. reflexivity.
  - unfold spread in *. simpl.
    assert (Hfresh : ~ In k (map fst acc)).
    { rewrite map_app in Hnd. simpl in Hnd.
      apply NoDup_remove_2 in Hnd. intros Hin. apply Hnd.
      apply in_or_app. left. exact Hin. }
    rewrite (assign_fresh k v acc Hfresh).
    rewrite IH; rewrite <- app_assoc; simpl; [reflexivity | exact Hnd].
Qed.

(** The object built in [trackEvent] holds every property the caller
    passed, under its own key and with its own value, except where one of
    the four enrichment keys overwrites it.  No key is left out for what it
    is called. *)
Lemma enrichedProperties_keeps_entries (E : Env) (properties : Props)
    (id : Value) (k : string) :
  NoDup (map fst properties) ->
  k <> "distinct_id" -> k <> "platform" -> k <> "version" -> k <> "node_version" ->
  lookup k (Telemetry.enrichedProperties E properties id) = lookup k properties.
Proof.
  intros Hnd H1 H2 H3 H4. unfold Telemetry.enrichedProperties.
  repeat (rewrite lookup_assign_other;
          [| apply String.eqb_neq; assumption]).
  rewrite (spread_distinct properties [] Hnd). reflexivity.
Qed.

(** The same for the extras that [trackError] attaches. *)
Lemma extras_keeps_entries (E : Env) (context : Props) (id : Value) (k : string) :
  NoDup (map fst context) ->
  k <> "platform" -> k <> "version" -> k <> "instanceId" ->
  lookup k (Telemetry.extras E context id) = lookup k context.
Proof.
  intros Hnd H1 H2 H3. unfold Telemetry.extras.
  repeat (rewrite lookup_assign_other;
          [| apply String.eqb_neq; assumption]).
  rewrite (spread_distinct context [] Hnd). reflexivity.
Qed.

(** C1 fails on the code: [trackEvent] hands PostHog the caller's [api_key]
    with its value, and [trackError] hands Sentry the caller's [password],
    where the sanitizer of the specification removes both.  The caller's
    mapping itself is not touched by either. *)
Theorem trackEvent_trackError_send_sensitive_keys :
  (exists sent,
     Telemetry.trackEvent (Scenario.env Scenario.none) "wallet_connected"
       (Some [("api_key", VString "secret"); ("network", VString "mainnet")])
       (Scenario.client_up, Scenario.history_up)
     = (Ok tt,
        (Scenario.client_up,
         EvPostHogCapture 0 (VString "id-1") "wallet_connected" sent
         :: Scenario.history_up))
     /\ lookup "api_key" sent = Some (VString "secret")
     /\ Spec.sanitize [("api_key", VString "secret"); ("network", VString "mainnet")]
        = [("network", VString "mainnet")]
     /\ sent <> Telemetry.enrichedProperties (Scenario.env Scenario.none)
                 (Spec.sanitize
                    [("api_key", VString "secret"); ("network", VString "mainnet")])
                 (VString "id-1"))
  /\ (exists sent,
        Telemetry.trackError (Scenario.env Scenario.none) (Scenario.failure "boom")
          (Some [("password", VString "hunter2"); ("command", VString "deploy")])
          (Scenario.client_up, Scenario.history_up)
        = (Ok tt,
           (Scenario.client_up,
            EvSentryCapture (Scenario.failure "boom") sent :: Scenario.history_up))
        /\ lookup "password" sent = Some (VString "hunter2")
        /\ Spec.sanitize
             [("password", VString "hunter2"); ("command", VString "deploy")]
           = [("command", VString "deploy")]
        /\ sent <> Telemetry.extras (Scenario.env Scenario.none)
                    (Spec.sanitize
                       [("password", VString "hunter2"); ("command", VString "deploy")])
                    (VString "id-1")).
Proof.
  split.
  - eexists. split; [reflexivity|]. split; [reflexivity|]. split; [reflexivity|].
    intros H; discriminate H.
  - eexists. split; [reflexivity|]. split; [reflexivity|]. split; [reflexivity|].
    intros H; discriminate H.
Qed.

(** ** The remaining cases of each method *)

Lemma trackEvent_unreadable (E : Env) (this : Telemetry.t) (w : World)
    (n : string) (p : option Props) (e : Error) :
  get (Telemetry.config this) "enabled" = inl e ->
  Telemetry.trackEvent E n p (this, w) = (Throw e, (this, w)).
Proof.
  intros Hen. unfold Telemetry.trackEvent. run. rewrite Hen. reflexivity.
Qed.

Lemma trackError_unreadable (E : Env) (this : Telemetry.t) (w : World)
    (err : Error) (c : option Props) (e : Error) :
  get (Telemetry.config this) "enabled" = inl e ->
  Telemetry.trackError E err c (this, w) = (Throw e, (this, w)).
Proof.
  intros Hen. unfold Telemetry.trackError. run. rewrite Hen. reflexivity.
Qed.

Lemma Telemetry_updateConsent_unreadable (E : Env) (b : bool)
    (this : Telemetry.t) (w : World) (e : Error) :
  get (Telemetry.config this) "configPath" = inl e ->
  Telemetry.updateConsent E b (this, w) = (Throw e, (this, w)).
Proof.
  intros Hcp. destruct this as [cfg ph si app]; simpl in Hcp.
  unfold Telemetry.updateConsent, Telemetry.on_config, ConfigManager.updateConsent.
  run. rewrite Hcp. reflexivity.
Qed.

Lemma reconnectPostHog_run (E : Env) (cfg : Value) (ph : option nat) (si : bool)
    (app : string) (w : World) (en : Value) :
  get cfg "enabled" = inr en ->
  truthy en = true ->
  Telemetry.reconnectPostHog E (Telemetry.mk cfg ph si app, w)
  = match ph with
    | Some _ => (Ok tt, (Telemetry.mk cfg ph si app, w))
    | None =>
        match posthog_new E w TELEMETRY_KEYS.posthogKey POSTHOG_URL with
        | None =>
            (Ok tt,
             (Telemetry.mk cfg (Some (length w)) si app,
              EvPostHogNew TELEMETRY_KEYS.posthogKey POSTHOG_URL :: w))
        | Some e =>
            (Ok tt,
             (Telemetry.mk cfg None si app,
              EvConsoleError "Failed to reconnect to PostHog:" e
              :: EvPostHogNew TELEMETRY_KEYS.posthogKey POSTHOG_URL :: w))
        end
    end.
Proof.
  intros Hen Htruthy.
  unfold Telemetry.reconnectPostHog, Telemetry.connected, Telemetry.new_PostHog.
  run. rewrite Hen; simpl. rewrite Htruthy; simpl.
  destruct ph; simpl; [reflexivity|].
  destruct (posthog_new E w TELEMETRY_KEYS.posthogKey POSTHOG_URL); reflexivity.
Qed.

Lemma reconnectSentry_run (E : Env) (cfg : Value) (ph : option nat) (si : bool)
    (app : string) (w : World) (en : Value) :
  get cfg "enabled" = inr en ->
  truthy en = true ->
  Telemetry.reconnectSentry E (Telemetry.mk cfg ph si app, w)
  = if si then (Ok tt, (Telemetry.mk cfg ph si app, w))
    else
      match sentry_init E w (Telemetry.sentryOptions E app) with
      | None =>
          (Ok tt,
           (Telemetry.mk cfg ph true app,
            EvSentryInit (Telemetry.sentryOptions E app) :: w))
      | Some e =>
          (Ok tt,
           (Telemetry.mk cfg ph false app,
            EvConsoleError "Failed to reconnect to Sentry:" e
            :: EvSentryInit (Telemetry.sentryOptions E app) :: w))
      end.
Proof.
  intros Hen Htruthy.
  unfold Telemetry.reconnectSentry, Telemetry.Sentry_init.
  run. rewrite Hen; simpl. rewrite Htruthy; simpl.
  destruct si; simpl; [reflexivity|].
  destruct (sentry_init E w (Telemetry.sentryOptions E app)); reflexivity.
Qed.

Lemma shutdown_run (E : Env) (cfg : Value) (ph : option nat) (si : bool)
    (app : string) (w : World) :
  let closeSentry (ph' : option nat) (w' : World) :=
    if si then
      match sentry_close E w' 2000 with
      | None => (Ok tt, (Telemetry.mk cfg ph' false app, EvSentryClose 2000 :: w'))
      | Some e => (Throw e, (Telemetry.mk cfg ph' true app, EvSentryClose 2000 :: w'))
      end
    else (Ok tt, (Telemetry.mk cfg ph' false app, w')) in
  Telemetry.shutdown E (Telemetry.mk cfg ph si app, w)
  = match ph with
    | None => closeSentry None w
    | Some c =>
        match posthog_shutdown E w c with
        | Some e =>
            (Throw e, (Telemetry.mk cfg (Some c) si app, EvPostHogShutdown c :: w))
        | None => closeSentry None (EvPostHogShutdown c :: w)
        end
    end.
Proof.
  intros closeSentry. subst closeSentry.
  destruct ph as [c|]; destruct si; unfold Telemetry.shutdown; run;
    repeat match goal with
           | |- context [posthog_shutdown E ?w0 ?c0] =>
               destruct (posthog_shutdown E w0 c0); simpl
           | |- context [sentry_close E ?w0 ?z] =>
               destruct (sentry_close E w0 z); simpl
           end; reflexivity.
Qed.

(** ** Initialization, further *)

(** [load] itself never calls into an SDK. *)
Lemma load_no_backend_call (E : Env) (app : string) (custom : option string)
    (w : World) :
  backendCalls (snd (ConfigManager.load E app custom w)) = backendCalls w.
Proof.
  unfold ConfigManager.load, ConfigManager.resolveConfigPath,
    ConfigManager.getDefaultConfigPath, ConfigManager.readExisting,
    ConfigManager.createNew, promptYesNo, access, readFile, parse, mkdir,
    writeFile, console_log.
  run.
  destruct custom as [p|]; [destruct (String.eqb p "")|];
    destruct (env_var E "HOME"); simpl; try reflexivity;
    (match goal with |- context [fs_access E ?w0 ?p0] =>
       destruct (fs_access E w0 p0) end; simpl;
     [| match goal with |- context [fs_readFile E ?w0 ?p0] =>
          destruct (fs_readFile E w0 p0) as [?|content] end; simpl;
        [| destruct (JSON_parse E content); simpl; [reflexivity|] ] ];
     destruct (isInteractive E); simpl; try reflexivity;
     match goal with |- context [fs_mkdir E ?w0 ?d0] =>
       destruct (fs_mkdir E w0 d0) end; simpl; try reflexivity;
     match goal with |- context [fs_writeFile E ?w0 ?x0 ?c0] =>
       destruct (fs_writeFile E w0 x0 c0) end; reflexivity).
Qed.

(** What [initialize] returned comes from a [load] that returned. *)
Lemma initialize_returned (E : Env) (app : string) (custom : option string)
    (w w' : World) (this : Telemetry.t) :
  Telemetry.initialize E app custom w = (Ok this, w') ->
  exists cfg w1 en,
    ConfigManager.load E app custom w = (Ok cfg, w1)
    /\ get cfg "enabled" = inr en
    /\ Telemetry.config this = cfg
    /\ (truthy en = false -> this = Telemetry.mk cfg None false app /\ w' = w1).
Proof.
  intros Hinit.
  destruct (ConfigManager.load E app custom w) as [[cfg|e] w1] eqn:Hload.
  - destruct (get cfg "enabled") as [e|en] eqn:Hen.
    + exfalso. revert Hinit. unfold Telemetry.initialize, bind at 1.
      rewrite Hload. run. rewrite Hen. discriminate.
    + destruct (initialize_after_load E app custom w w1 cfg en Hload Hen)
        as [this0 [w0 [Hinit0 [Hcfg Hdis]]]].
      rewrite Hinit in Hinit0. injection Hinit0 as <- <-.
      exists cfg, w1, en. repeat split; try assumption; apply Hdis; assumption.
  - rewrite (initialize_load_throws E app custom w w1 e Hload) in Hinit.
    discriminate Hinit.
Qed.

(** X1: a client that [initialize] returns with a disabled config holds no
    connector, [initialize] made no call into either SDK, and none is made
    by any later [trackEvent], [trackError], [updateConsent(false)] or
    [shutdown]. *)
Theorem disabled_installation_never_calls_a_backend
    (E : Env) (app : string) (custom : option string) (w w' : World)
    (this : Telemetry.t) (ops : list Op) :
  Telemetry.initialize E app custom w = (Ok this, w') ->
  disabled this ->
  forallb (fun op => negb (enablesConsent op)) ops = true ->
  released this
  /\ backendCalls w' = backendCalls w
  /\ released (fst (perform_all E ops (this, w')))
  /\ backendCalls (snd (perform_all E ops (this, w'))) = backendCalls w.
Proof.
  intros Hinit Hdis Hops.
  destruct (initialize_returned E app custom w w' this Hinit)
    as [cfg [w1 [en [Hload [Hen [Hcfg Hoff]]]]]].
  assert (Hfalsy : truthy en = false).
  { destruct Hdis as [en' [Hen' Hfalsy']]. rewrite Hcfg, Hen in Hen'.
    injection Hen' as ->. exact Hfalsy'. }
  destruct (Hoff Hfalsy) as [Hthis Hw].
  assert (Hrel : released this) by (subst this; split; reflexivity).
  assert (Hcalls : backendCalls w' = backendCalls w).
  { rewrite Hw. pose proof (load_no_backend_call E app custom w) as H.
    rewrite Hload in H. exact H. }
  destruct (perform_all_disabled_released E ops this w' Hdis Hrel Hops)
    as [Hrel' Hcalls'].
  repeat split; try apply Hrel; try apply Hrel'; congruence.
Qed.

Lemma disabled_installation_witness :
  backendCalls
    (snd (perform_all
            (Cases.env Cases.in_ci None "y" Scenario.none false)
            [ OpTrackEvent "command_executed" None; OpUpdateConsent false;
              OpTrackError (Scenario.failure "boom") None; OpShutdown ]
            (Telemetry.mk
               (ConfigManager.newConfig false
                  "7d5f0c0e-0000-4000-8000-000000000001" 1700000000000
                  "/tmp/t.json")
               None false "tool",
             [EvNewDate; EvUuid; EvFsAccess "/tmp/t.json"])))
  = [].
Proof.
  apply (disabled_installation_never_calls_a_backend
           (Cases.env Cases.in_ci None "y" Scenario.none false)
           "tool" (Some "/tmp/t.json") []
           [EvNewDate; EvUuid; EvFsAccess "/tmp/t.json"]
           (Telemetry.mk
              (ConfigManager.newConfig false
                 "7d5f0c0e-0000-4000-8000-000000000001" 1700000000000
                 "/tmp/t.json")
              None false "tool")
           [ OpTrackEvent "command_executed" None; OpUpdateConsent false;
             OpTrackError (Scenario.failure "boom") None; OpShutdown ]).
  - reflexivity.
  - exists (VBool false). split; reflexivity.
  - reflexivity.
Defined.

(** X2: on an enabled config [initialize] always returns a client.  It
    calls the PostHog constructor once and [Sentry.init] once, the second
    whatever the first did; the client holds the new PostHog client exactly
    when the constructor returned, and is marked initialized exactly when
    [Sentry.init] returned. *)
Theorem initialize_enabled_connects_each_backend_once
    (E : Env) (app : string) (custom : option string) (w w1 : World)
    (cfg en : Value) :
  ConfigManager.load E app custom w = (Ok cfg, w1) ->
  get cfg "enabled" = inr en ->
  truthy en = true ->
  let tried := EvPostHogNew TELEMETRY_KEYS.posthogKey POSTHOG_URL :: w1 in
  let w2 :=
    match posthog_new E w1 TELEMETRY_KEYS.posthogKey POSTHOG_URL with
    | None => tried
    | Some e => EvConsoleError "Failed to initialize PostHog:" e :: tried
    end in
  exists w',
    Telemetry.initialize E app custom w
    = (Ok (Telemetry.mk cfg
             (match posthog_new E w1 TELEMETRY_KEYS.posthogKey POSTHOG_URL with
              | None => Some (length w1)
              | Some _ => None
              end)
             (match sentry_init E w2 (Telemetry.sentryOptions E app) with
              | None => true
              | Some _ => false
              end)
             app),
       w')
    /\ connectAttempts w' = S (connectAttempts w1)
    /\ sentryInits w' = S (sentryInits w1)
    /\ fsCalls w' = fsCalls w1.
Proof.
  intros Hload Hen Htruthy tried w2. subst w2 tried.
  unfold Telemetry.initialize, bind at 1. rewrite Hload.
  unfold Telemetry.new_PostHog, Telemetry.Sentry_init. run.
  rewrite Hen; simpl. rewrite Htruthy; simpl.
  destruct (posthog_new E w1 TELEMETRY_KEYS.posthogKey POSTHOG_URL); simpl;
    match goal with |- context [sentry_init E ?w0 ?o] =>
      destruct (sentry_init E w0 o) end; simpl;
    eexists; repeat split.
Qed.

Lemma initialize_enabled_witness :
  exists w',
    Telemetry.initialize (Cases.env Cases.home_only
                            (Some (Scenario.cfg true (VString "/tmp/t.json")))
                            "y" Scenario.posthog_down false)
      "tool" (Some "/tmp/t.json") []
    = (Ok (Telemetry.mk (Scenario.cfg true (VString "/tmp/t.json")) None true "tool"),
       w')
    /\ connectAttempts w' = 1%nat
    /\ sentryInits w' = 1%nat
    /\ fsCalls w' = [EvFsReadFile "/tmp/t.json"; EvFsAccess "/tmp/t.json"].
Proof.
  apply (initialize_enabled_connects_each_backend_once
           (Cases.env Cases.home_only
              (Some (Scenario.cfg true (VString "/tmp/t.json")))
              "y" Scenario.posthog_down false)
           "tool" (Some "/tmp/t.json") []
           [EvFsReadFile "/tmp/t.json"; EvFsAccess "/tmp/t.json"]
           (Scenario.cfg true (VString "/tmp/t.json")) (VBool true));
    reflexivity.
Defined.

(** X3: when the loaded config is a value whose properties cannot be read
    ([null]), [initialize] raises the [TypeError] of reading [enabled] and
    contacts nothing further. *)
Theorem initialize_unreadable_config_throws
    (E : Env) (app : string) (custom : option string) (w w1 : World)
    (cfg : Value) :
  ConfigManager.load E app custom w = (Ok cfg, w1) ->
  cfg = VNull \/ cfg = VUndefined ->
  exists e,
    get cfg "enabled" = inl e
    /\ name e = "TypeError"
    /\ Telemetry.initialize E app custom w = (Throw e, w1).
Proof.
  intros Hload Hcfg.
  unfold Telemetry.initialize, bind at 1. rewrite Hload. run.
  destruct Hcfg as [-> | ->]; simpl; eexists; repeat split.
Qed.

Lemma initialize_null_config_witness :
  exists e,
    get VNull "enabled" = inl e
    /\ name e = "TypeError"
    /\ Telemetry.initialize
         (Cases.env Cases.home_only (Some VNull) "y" Scenario.none false)
         "tool" (Some "/tmp/t.json") []
       = (Throw e, [EvFsReadFile "/tmp/t.json"; EvFsAccess "/tmp/t.json"]).
Proof.
  apply (initialize_unreadable_config_throws
           (Cases.env Cases.home_only (Some VNull) "y" Scenario.none false)
           "tool" (Some "/tmp/t.json") []
           [EvFsReadFile "/tmp/t.json"; EvFsAccess "/tmp/t.json"] VNull).
  - reflexivity.
  - left. reflexivity.
Defined.

(** X4: with no custom path (none given, or the empty string) and [HOME]
    unset, [load] and [initialize] raise a [TypeError] before any file is
    touched: the history is unchanged. *)
Theorem initialize_without_HOME_throws_before_any_call
    (E : Env) (app : string) (custom : option string) (w : World) :
  custom = None \/ custom = Some "" ->
  env_var E "HOME" = None ->
  exists e,
    name e = "TypeError"
    /\ ConfigManager.load E app custom w = (Throw e, w)
    /\ Telemetry.initialize E app custom w = (Throw e, w).
Proof.
  intros Hcustom Hhome.
  assert (Hload : ConfigManager.load E app custom w
                  = (Throw (TypeError "The path argument must be of type string. Received undefined"), w)).
  { unfold ConfigManager.load, ConfigManager.resolveConfigPath,
      ConfigManager.getDefaultConfigPath, bind.
    destruct Hcustom as [-> | ->]; simpl; rewrite Hhome; reflexivity. }
  eexists. split; [|split; [exact Hload|]].
  - reflexivity.
  - apply initialize_load_throws. exact Hload.
Qed.

Lemma initialize_without_HOME_witness :
  exists e,
    name e = "TypeError"
    /\ ConfigManager.load
         (Cases.env Cases.no_vars None "y" Scenario.none false) "tool" (Some "") []
       = (Throw e, [])
    /\ Telemetry.initialize
         (Cases.env Cases.no_vars None "y" Scenario.none false) "tool" (Some "") []
       = (Throw e, []).
Proof.
  apply (initialize_without_HOME_throws_before_any_call
           (Cases.env Cases.no_vars None "y" Scenario.none false)
           "tool" (Some "") []).
  - right. reflexivity.
  - reflexivity.
Defined.

(** ** Consent on first run *)

Lemma lower_ascii_is_y (c : ascii) :
  Ascii.eqb (lower_ascii c) "y" = Ascii.eqb c "y" || Ascii.eqb c "Y".
Proof.
  destruct c as [[] [] [] [] [] [] [] []]; reflexivity.
Qed.

Lemma startsWith_lower_y (answer : string) :
  startsWith (toLowerCase answer) "y"
  = match answer with
    | EmptyString => false
    | String c _ => Ascii.eqb c "y" || Ascii.eqb c "Y"
    end.
Proof.
  destruct answer as [|c rest]; [reflexivity|].
  rewrite <- lower_ascii_is_y. unfold startsWith. cbn [toLowerCase].
  destruct (Ascii.eqb_spec (lower_ascii c) "y") as [Heq | Hne].
  - rewrite Heq. apply String.prefix_correct. cbn [String.length substring].
    destruct (toLowerCase rest); reflexivity.
  - destruct (String.prefix "y" (String (lower_ascii c) (toLowerCase rest))) eqn:Hp;
      [|reflexivity].
    apply String.prefix_correct in Hp. cbn [String.length substring] in Hp.
    injection Hp as Hc _. contradiction.
Qed.

(** X5: [promptYesNo] asks one question, the prompt followed by [ (y/n) ],
    and answers yes exactly when the reply begins with [y] or [Y]; an empty
    reply is a no. *)
Theorem promptYesNo_yes_iff_reply_begins_with_y
    (E : Env) (prompt : string) (w : World) :
  promptYesNo E prompt w
  = (Ok match question E w (prompt ++ " (y/n) ") with
        | EmptyString => false
        | String c _ => Ascii.eqb c "y" || Ascii.eqb c "Y"
        end,
     EvQuestion (prompt ++ " (y/n) ") :: w).
Proof.
  unfold promptYesNo. run. rewrite startsWith_lower_y. reflexivity.
Qed.

(** X6: when a CI variable is set to a non-empty string, or either standard
    stream is not a terminal, [createNew] asks nothing and writes nothing: it
    returns a disabled record with a fresh instance id, the current date and
    the path, having only drawn the id and read the clock. *)
Theorem createNew_noninteractive_is_disabled_and_unpersisted
    (E : Env) (app path : string) (w : World) :
  env_truthy E "CI" = true
  \/ env_truthy E "CONTINUOUS_INTEGRATION" = true
  \/ env_truthy E "BUILD_NUMBER" = true
  \/ env_truthy E "GITHUB_ACTIONS" = true
  \/ stdin_isatty E = false
  \/ stdout_isatty E = false ->
  ConfigManager.createNew E app path w
  = (Ok (ConfigManager.newConfig false (uuidv4 E w) (new_Date E (EvUuid :: w)) path),
     EvNewDate :: EvUuid :: w).
Proof.
  intros Hcase.
  assert (Hint : isInteractive E = false).
  { unfold isInteractive, isCiEnvironment.
    destruct Hcase as [H | [H | [H | [H | [H | H]]]]]; rewrite H;
      repeat match goal with
             | |- context [env_truthy E ?x] => destruct (env_truthy E x)
             | |- context [stdin_isatty E] => destruct (stdin_isatty E)
             | |- context [stdout_isatty E] => destruct (stdout_isatty E)
             end; reflexivity. }
  unfold ConfigManager.createNew. rewrite Hint. reflexivity.
Qed.

Lemma createNew_in_ci_witness :
  ConfigManager.createNew (Cases.env Cases.in_ci None "y" Scenario.none false)
    "tool" "/tmp/t.json" [EvFsAccess "/tmp/t.json"]
  = (Ok (ConfigManager.newConfig false "7d5f0c0e-0000-4000-8000-000000000001"
           1700000000000 "/tmp/t.json"),
     [EvNewDate; EvUuid; EvFsAccess "/tmp/t.json"]).
Proof.
  apply (createNew_noninteractive_is_disabled_and_unpersisted
           (Cases.env Cases.in_ci None "y" Scenario.none false)
           "tool" "/tmp/t.json" [EvFsAccess "/tmp/t.json"]).
  right. right. right. left. reflexivity.
Defined.

(** X7: on an interactive terminal, when the directory can be created and
    the file written, [createNew] returns the very record it wrote: the
    directory of the path is created first, then the record is written to the
    path; its [enabled] is the user's answer and its [configPath] the path. *)
Theorem createNew_interactive_returns_what_it_persisted
    (E : Env) (app path : string) (w : World) :
  isInteractive E = true ->
  let w2 := worldBeforeSave w in
  let dir := path_dirname E path in
  let cfg := recordToSave E path w in
  fs_mkdir E w2 dir = None ->
  fs_writeFile E (EvFsMkdir dir :: w2) (VString path) (JSON_stringify E cfg) = None ->
  ConfigManager.createNew E app path w
  = (Ok cfg,
     EvFsWriteFile (VString path) (JSON_stringify E cfg) :: EvFsMkdir dir :: w2)
  /\ get cfg "configPath" = inr (VString path)
  /\ get cfg "enabled"
     = inr (VBool match question E (worldAfterBanner w) promptText with
                  | EmptyString => false
                  | String c _ => Ascii.eqb c "y" || Ascii.eqb c "Y"
                  end).
Proof.
  intros Hint w2 dir cfg Hmk Hwr.
  pose proof (createNew_interactive E app path w Hint) as Hrun.
  simpl in Hrun. fold w2 dir cfg in Hrun. rewrite Hmk, Hwr in Hrun.
  split; [exact Hrun|]. split; [reflexivity|].
  subst cfg. unfold recordToSave, ConfigManager.newConfig. simpl.
  rewrite startsWith_lower_y. reflexivity.
Qed.

Lemma createNew_interactive_witness :
  get (recordToSave (Cases.env Cases.home_only None "No thanks" Scenario.none false)
         "/tmp/t.json" [EvFsAccess "/tmp/t.json"])
      "enabled"
  = inr (VBool false).
Proof.
  apply (createNew_interactive_returns_what_it_persisted
           (Cases.env Cases.home_only None "No thanks" Scenario.none false)
           "tool" "/tmp/t.json" [EvFsAccess "/tmp/t.json"]);
    reflexivity.
Defined.

(** ** Tracking, further *)

(** On a disabled config [trackEvent] and [trackError] return at once:
    no call of any kind is made and the client is untouched, whether or not
    it holds connectors. *)
Theorem track_on_disabled_config_does_nothing
    (E : Env) (this : Telemetry.t) (w : World) (n : string) (p : option Props)
    (err : Error) (c : option Props) (en : Value) :
  get (Telemetry.config this) "enabled" = inr en ->
  truthy en = false ->
  Telemetry.trackEvent E n p (this, w) = (Ok tt, (this, w))
  /\ Telemetry.trackError E err c (this, w) = (Ok tt, (this, w)).
Proof.
  intros Hen Hfalsy. split.
  - exact (trackEvent_disabled E this w n p en Hen Hfalsy).
  - exact (trackError_disabled E this w err c en Hen Hfalsy).
Qed.

Lemma track_on_disabled_config_witness :
  Telemetry.trackEvent (Scenario.env Scenario.none) "command_executed" None
    (Telemetry.mk (Scenario.cfg false (VString "/tmp/t.json")) (Some 0%nat) true "tool",
     Scenario.history_up)
  = (Ok tt,
     (Telemetry.mk (Scenario.cfg false (VString "/tmp/t.json")) (Some 0%nat) true "tool",
      Scenario.history_up)).
Proof.
  apply (proj1 (track_on_disabled_config_does_nothing
                  (Scenario.env Scenario.none)
                  (Telemetry.mk (Scenario.cfg false (VString "/tmp/t.json"))
                     (Some 0%nat) true "tool")
                  Scenario.history_up "command_executed" None
                  (Scenario.failure "boom") None (VBool false) eq_refl eq_refl)).
Defined.

(** X8: when an enabled client holds no PostHog client and the constructor
    returns, [trackEvent] dispatches the event in the same call through the
    new client, and the client keeps it even if that dispatch fails. *)
Theorem trackEvent_reconnected_dispatches_in_same_call
    (E : Env) (this : Telemetry.t) (w : World) (n : string) (p : option Props)
    (en id : Value) :
  get (Telemetry.config this) "enabled" = inr en ->
  truthy en = true ->
  get (Telemetry.config this) "instanceId" = inr id ->
  Telemetry.posthog this = None ->
  posthog_new E w TELEMETRY_KEYS.posthogKey POSTHOG_URL = None ->
  let w1 := EvPostHogNew TELEMETRY_KEYS.posthogKey POSTHOG_URL :: w in
  let client := length w in
  let props := Telemetry.enrichedProperties E
                 (match p with Some p => p | None => [] end) id in
  let after := (Telemetry.set_posthog (Some client) this,
                EvPostHogCapture client id n props :: w1) in
  Telemetry.trackEvent E n p (this, w)
  = match posthog_capture E w1 client id n props with
    | None => (Ok tt, after)
    | Some e =>
        (Throw (TelemetryError ("Failed to track event: " ++ toString e)
                               "EVENT_TRACKING_ERROR"),
         after)
    end.
Proof.
  intros Hen Htruthy Hid Hnone Hnew w1 client props after.
  rewrite (trackEvent_disconnected E this w n p en Hen Htruthy Hnone), Hnew.
  rewrite (trackEvent_connected E _ _ n p en id client);
    try (destruct this; assumption); reflexivity.
Qed.

Lemma trackEvent_reconnected_witness :
  Telemetry.trackEvent (Scenario.env Scenario.none) "command_executed" None
    (Scenario.client_down, [])
  = (Ok tt,
     (Telemetry.set_posthog (Some 0%nat) Scenario.client_down,
      [ EvPostHogCapture 0 (VString "id-1") "command_executed"
          (Telemetry.enrichedProperties (Scenario.env Scenario.none) []
             (VString "id-1"));
        EvPostHogNew TELEMETRY_KEYS.posthogKey POSTHOG_URL ])).
Proof.
  apply (trackEvent_reconnected_dispatches_in_same_call
           (Scenario.env Scenario.none) Scenario.client_down []
           "command_executed" None (VBool true) (VString "id-1"));
    reflexivity.
Defined.

(** X9: when an enabled client is not marked initialized and [Sentry.init]
    returns, [trackError] submits the error in the same call, and the client
    stays marked initialized even if the submission throws. *)
Theorem trackError_reconnected_submits_in_same_call
    (E : Env) (this : Telemetry.t) (w : World) (err : Error) (c : option Props)
    (en id : Value) :
  get (Telemetry.config this) "enabled" = inr en ->
  truthy en = true ->
  get (Telemetry.config this) "instanceId" = inr id ->
  Telemetry.sentryInitialized this = false ->
  let opts := Telemetry.sentryOptions E (Telemetry.appName this) in
  sentry_init E w opts = None ->
  let w1 := EvSentryInit opts :: w in
  let x := Telemetry.extras E (match c with Some c => c | None => [] end) id in
  let after := (Telemetry.set_sentryInitialized true this,
                EvSentryCapture err x :: w1) in
  Telemetry.trackError E err c (this, w)
  = match sentry_capture E w1 err x with
    | None => (Ok tt, after)
    | Some e => (Throw e, after)
    end.
Proof.
  intros Hen Htruthy Hid Hinit opts Hok w1 x after.
  rewrite (trackError_disconnected E this w err c en Hen Htruthy Hinit).
  fold opts. rewrite Hok.
  rewrite (trackError_connected E _ _ err c en id);
    try (destruct this; assumption); reflexivity.
Qed.

Lemma trackError_reconnected_witness :
  Telemetry.trackError (Scenario.env Scenario.none) (Scenario.failure "boom") None
    (Scenario.client_down, [])
  = (Ok tt,
     (Telemetry.set_sentryInitialized true Scenario.client_down,
      [ EvSentryCapture (Scenario.failure "boom")
          (Telemetry.extras (Scenario.env Scenario.none) [] (VString "id-1"));
        EvSentryInit (Telemetry.sentryOptions (Scenario.env Scenario.none) "tool") ])).
Proof.
  apply (trackError_reconnected_submits_in_same_call
           (Scenario.env Scenario.none) Scenario.client_down []
           (Scenario.failure "boom") None (VBool true) (VString "id-1"));
    reflexivity.
Defined.

(** ** What the backends receive *)

Lemma lookup_enrichedProperties (E : Env) (properties : Props) (id : Value)
    (k : string) :
  NoDup (map fst properties) ->
  lookup k (Telemetry.enrichedProperties E properties id)
  = if String.eqb k "distinct_id" then Some id
    else if String.eqb k "platform" then Some (VString (platform E))
    else if String.eqb k "version" then Some (VString (version_or_unknown E))
    else if String.eqb k "node_version" then Some (VString (node_version E))
    else lookup k properties.
Proof.
  intros Hnd. unfold Telemetry.enrichedProperties.
  destruct (String.eqb_spec k "distinct_id") as [-> | H1].
  { repeat (rewrite lookup_assign_other; [|reflexivity]).
    apply lookup_assign_same. }
  destruct (String.eqb_spec k "platform") as [-> | H2].
  { repeat (rewrite lookup_assign_other; [|reflexivity]).
    apply lookup_assign_same. }
  destruct (String.eqb_spec k "version") as [-> | H3].
  { repeat (rewrite lookup_assign_other; [|reflexivity]).
    apply lookup_assign_same. }
  destruct (String.eqb_spec k "node_version") as [-> | H4].
  { apply lookup_assign_same. }
  repeat (rewrite lookup_assign_other; [| apply String.eqb_neq; assumption]).
  rewrite (spread_distinct properties [] Hnd). reflexivity.
Qed.

Lemma lookup_extras (E : Env) (context : Props) (id : Value) (k : string) :
  NoDup (map fst context) ->
  lookup k (Telemetry.extras E context id)
  = if String.eqb k "platform" then Some (VString (platform E))
    else if String.eqb k "version" then Some (version_value E)
    else if String.eqb k "instanceId" then Some id
    else lookup k context.
Proof.
  intros Hnd. unfold Telemetry.extras.
  destruct (String.eqb_spec k "platform") as [-> | H1].
  { repeat (rewrite lookup_assign_other; [|reflexivity]).
    apply lookup_assign_same. }
  destruct (String.eqb_spec k "version") as [-> | H2].
  { repeat (rewrite lookup_assign_other; [|reflexivity]).
    apply lookup_assign_same. }
  destruct (String.eqb_spec k "instanceId") as [-> | H3].
  { apply lookup_assign_same. }
  repeat (rewrite lookup_assign_other; [| apply String.eqb_neq; assumption]).
  rewrite (spread_distinct context [] Hnd). reflexivity.
Qed.

(** X10: on a connected, enabled client [trackEvent] makes exactly one call,
    a [capture] whose distinct id is the config's [instanceId] and whose
    properties are the caller's, every one of them with its own value, with
    [distinct_id], [platform], [version] and [node_version] set by the
    client: a caller's entry under one of these four keys is overwritten,
    and [version] is [unknown] when the package version is unset or empty. *)
Theorem trackEvent_payload
    (E : Env) (this : Telemetry.t) (w : World) (n : string) (properties : Props)
    (en id : Value) (client : nat) :
  get (Telemetry.config this) "enabled" = inr en ->
  truthy en = true ->
  get (Telemetry.config this) "instanceId" = inr id ->
  Telemetry.posthog this = Some client ->
  NoDup (map fst properties) ->
  exists sent,
    snd (Telemetry.trackEvent E n (Some properties) (this, w))
    = (this, EvPostHogCapture client id n sent :: w)
    /\ forall k,
         lookup k sent
         = if String.eqb k "distinct_id" then Some id
           else if String.eqb k "platform" then Some (VString (platform E))
           else if String.eqb k "version" then
             Some (VString match env_var E "npm_package_version" with
                           | Some s => if String.eqb s "" then "unknown" else s
                           | None => "unknown"
                           end)
           else if String.eqb k "node_version" then Some (VString (node_version E))
           else lookup k properties.
Proof.
  intros Hen Htruthy Hid Hclient Hnd.
  exists (Telemetry.enrichedProperties E properties id). split.
  - rewrite (trackEvent_connected E this w n (Some properties) en id client
               Hen Htruthy Hid Hclient).
    destruct (posthog_capture E w client id n _); reflexivity.
  - intros k. apply (lookup_enrichedProperties E properties id k Hnd).
Qed.

Lemma trackEvent_payload_witness :
  exists sent,
    snd (Telemetry.trackEvent (Cases.env Cases.home_only None "y" Scenario.none false)
           "deploy" (Some [("version", VString "9.9.9"); ("token", VString "t0p")])
           (Scenario.client_up, Scenario.history_up))
    = (Scenario.client_up,
       EvPostHogCapture 0 (VString "id-1") "deploy" sent :: Scenario.history_up)
    /\ lookup "version" sent = Some (VString "unknown")
    /\ lookup "token" sent = Some (VString "t0p").
Proof.
  destruct (trackEvent_payload
              (Cases.env Cases.home_only None "y" Scenario.none false)
              Scenario.client_up Scenario.history_up "deploy"
              [("version", VString "9.9.9"); ("token", VString "t0p")]
              (VBool true) (VString "id-1") 0%nat eq_refl eq_refl eq_refl eq_refl)
    as [sent [Hsent Hlook]].
  - repeat constructor; simpl; intuition discriminate.
  - exists sent. split; [exact Hsent|]. split.
    + rewrite (Hlook "version"). reflexivity.
    + rewrite (Hlook "token"). reflexivity.
Defined.

(** X11: on an enabled client marked initialized [trackError] makes exactly
    one call, a submission of the caller's error whose extras are the
    caller's context, every entry with its own value, with [platform],
    [version] and [instanceId] set by the client; here [version] is the
    package version as it is, [undefined] when unset. *)
Theorem trackError_payload
    (E : Env) (this : Telemetry.t) (w : World) (err : Error) (context : Props)
    (en id : Value) :
  get (Telemetry.config this) "enabled" = inr en ->
  truthy en = true ->
  get (Telemetry.config this) "instanceId" = inr id ->
  Telemetry.sentryInitialized this = true ->
  NoDup (map fst context) ->
  exists sent,
    snd (Telemetry.trackError E err (Some context) (this, w))
    = (this, EvSentryCapture err sent :: w)
    /\ forall k,
         lookup k sent
         = if String.eqb k "platform" then Some (VString (platform E))
           else if String.eqb k "version" then
             Some match env_var E "npm_package_version" with
                  | Some s => VString s
                  | None => VUndefined
                  end
           else if String.eqb k "instanceId" then Some id
           else lookup k context.
Proof.
  intros Hen Htruthy Hid Hinit Hnd.
  exists (Telemetry.extras E context id). split.
  - rewrite (trackError_connected E this w err (Some context) en id
               Hen Htruthy Hid Hinit).
    destruct (sentry_capture E w err _); reflexivity.
  - intros k. apply (lookup_extras E context id k Hnd).
Qed.

Lemma trackError_payload_witness :
  exists sent,
    snd (Telemetry.trackError (Cases.env Cases.home_only None "y" Scenario.none false)
           (Scenario.failure "boom") (Some [("command", VString "deploy")])
           (Scenario.client_up, Scenario.history_up))
    = (Scenario.client_up,
       EvSentryCapture (Scenario.failure "boom") sent :: Scenario.history_up)
    /\ lookup "version" sent = Some VUndefined
    /\ lookup "command" sent = Some (VString "deploy").
Proof.
  destruct (trackError_payload
              (Cases.env Cases.home_only None "y" Scenario.none false)
              Scenario.client_up Scenario.history_up (Scenario.failure "boom")
              [("command", VString "deploy")]
              (VBool true) (VString "id-1") eq_refl eq_refl eq_refl eq_refl)
    as [sent [Hsent Hlook]].
  - repeat constructor; simpl; intuition discriminate.
  - exists sent. split; [exact Hsent|]. split.
    + rewrite (Hlook "version"). reflexivity.
    + rewrite (Hlook "command"). reflexivity.
Defined.

(** ** Consent update, further *)

(** X12: withdrawing consent on a config with a path, when the write
    succeeds, sets [enabled] to [false] in memory, writes the whole updated
    record to that path and does nothing else: the connectors the client
    holds are neither closed nor released, and from then on [trackEvent] and
    [trackError] do nothing. *)
Theorem updateConsent_false_persists_and_silences
    (E : Env) (kind : ObjKind) (fields : Props) (ph : option nat) (si : bool)
    (app : string) (w : World) (cp : Value) :
  lookup "configPath" fields = Some cp ->
  truthy cp = true ->
  let cfg' := VObject kind (assign "enabled" (VBool false) fields) in
  let after := (Telemetry.mk cfg' ph si app,
                EvFsWriteFile cp (JSON_stringify E cfg') :: w) in
  fs_writeFile E w cp (JSON_stringify E cfg') = None ->
  Telemetry.updateConsent E false (Telemetry.mk (VObject kind fields) ph si app, w)
  = (Ok tt, after)
  /\ (forall n p, Telemetry.trackEvent E n p after = (Ok tt, after))
  /\ (forall err c, Telemetry.trackError E err c after = (Ok tt, after)).
Proof.
  intros Hcp Htruthy cfg' after Hwrite.
  assert (Hoff : get cfg' "enabled" = inr (VBool false)).
  { subst cfg'. simpl. rewrite lookup_assign_same. reflexivity. }
  split; [|split].
  - rewrite (Telemetry_updateConsent_with_path E false kind fields ph si app w cp
               Hcp Htruthy).
    fold cfg'. rewrite Hwrite. reflexivity.
  - intros n p. apply (trackEvent_disabled E _ _ n p (VBool false)); [exact Hoff|].
    reflexivity.
  - intros err c. apply (trackError_disabled E _ _ err c (VBool false)); [exact Hoff|].
    reflexivity.
Qed.

Lemma updateConsent_false_witness :
  Telemetry.updateConsent (Scenario.env Scenario.none) false
    (Scenario.client_up, Scenario.history_up)
  = (Ok tt,
     (Telemetry.mk (Scenario.cfg false (VString "/tmp/t.json")) (Some 0%nat) true "tool",
      EvFsWriteFile (VString "/tmp/t.json") "{}" :: Scenario.history_up)).
Proof.
  apply (proj1 (updateConsent_false_persists_and_silences
                  (Scenario.env Scenario.none) PlainObject
                  [ ("enabled", VBool true); ("instanceId", VString "id-1");
                    ("createdAt", VString "2024-01-01T00:00:00.000Z");
                    ("configPath", VString "/tmp/t.json") ]
                  (Some 0%nat) true "tool" Scenario.history_up
                  (VString "/tmp/t.json") eq_refl eq_refl eq_refl)).
Defined.

(** X13: when the write of [updateConsent] fails, the caller gets the file
    system's own error, but the flag has already been changed in memory:
    the config now reads the new value although nothing was persisted, and
    no reconnection is attempted. *)
Theorem updateConsent_write_failure_keeps_new_flag_in_memory
    (E : Env) (b : bool) (kind : ObjKind) (fields : Props) (ph : option nat)
    (si : bool) (app : string) (w : World) (cp : Value) (e : Error) :
  lookup "configPath" fields = Some cp ->
  truthy cp = true ->
  let cfg' := VObject kind (assign "enabled" (VBool b) fields) in
  fs_writeFile E w cp (JSON_stringify E cfg') = Some e ->
  Telemetry.updateConsent E b (Telemetry.mk (VObject kind fields) ph si app, w)
  = (Throw e,
     (Telemetry.mk cfg' ph si app, EvFsWriteFile cp (JSON_stringify E cfg') :: w))
  /\ get cfg' "enabled" = inr (VBool b).
Proof.
  intros Hcp Htruthy cfg' Hwrite. split.
  - rewrite (Telemetry_updateConsent_with_path E b kind fields ph si app w cp
               Hcp Htruthy).
    fold cfg'. rewrite Hwrite. reflexivity.
  - subst cfg'. simpl. rewrite lookup_assign_same. reflexivity.
Qed.

Lemma updateConsent_write_failure_witness :
  Telemetry.updateConsent (Scenario.env Scenario.write_failing) true
    (Telemetry.mk (Scenario.cfg false (VString "/tmp/t.json")) None false "tool", [])
  = (Throw (Scenario.failure "EACCES"),
     (Scenario.client_down, [EvFsWriteFile (VString "/tmp/t.json") "{}"])).
Proof.
  apply (proj1 (updateConsent_write_failure_keeps_new_flag_in_memory
                  (Scenario.env Scenario.write_failing) true PlainObject
                  [ ("enabled", VBool false); ("instanceId", VString "id-1");
                    ("createdAt", VString "2024-01-01T00:00:00.000Z");
                    ("configPath", VString "/tmp/t.json") ]
                  None false "tool" [] (VString "/tmp/t.json")
                  (Scenario.failure "EACCES") eq_refl eq_refl eq_refl)).
Defined.

(** X14: giving consent on a config with a path, when the write succeeds,
    always returns normally.  After the write, the PostHog constructor is
    called once if the client holds no PostHog client, and [Sentry.init]
    once if the client is not marked initialized, the second whatever the
    first did; a connector already held is left alone. *)
Theorem updateConsent_true_connects_what_is_missing
    (E : Env) (kind : ObjKind) (fields : Props) (ph : option nat) (si : bool)
    (app : string) (w : World) (cp : Value) :
  lookup "configPath" fields = Some cp ->
  truthy cp = true ->
  let cfg' := VObject kind (assign "enabled" (VBool true) fields) in
  let w1 := EvFsWriteFile cp (JSON_stringify E cfg') :: w in
  fs_writeFile E w cp (JSON_stringify E cfg') = None ->
  let tried := EvPostHogNew TELEMETRY_KEYS.posthogKey POSTHOG_URL :: w1 in
  let posthogStep :=
    match ph with
    | Some c => (Some c, w1)
    | None =>
        match posthog_new E w1 TELEMETRY_KEYS.posthogKey POSTHOG_URL with
        | None => (Some (length w1), tried)
        | Some e =>
            (None, EvConsoleError "Failed to reconnect to PostHog:" e :: tried)
        end
    end in
  let w2 := snd posthogStep in
  let opts := Telemetry.sentryOptions E app in
  let sentryStep :=
    if si then (true, w2)
    else
      match sentry_init E w2 opts with
      | None => (true, EvSentryInit opts :: w2)
      | Some e =>
          (false,
           EvConsoleError "Failed to reconnect to Sentry:" e
           :: EvSentryInit opts :: w2)
      end in
  Telemetry.updateConsent E true (Telemetry.mk (VObject kind fields) ph si app, w)
  = (Ok tt, (Telemetry.mk cfg' (fst posthogStep) (fst sentryStep) app, snd sentryStep))
  /\ connectAttempts (snd sentryStep)
     = (connectAttempts w + match ph with Some _ => 0 | None => 1 end)%nat
  /\ sentryInits (snd sentryStep)
     = (sentryInits w + if si then 0 else 1)%nat.
Proof.
  intros Hcp Htruthy cfg' w1 Hwrite tried posthogStep w2 opts sentryStep.
  assert (Hon : get cfg' "enabled" = inr (VBool true)).
  { subst cfg'. simpl. rewrite lookup_assign_same. reflexivity. }
  rewrite (Telemetry_updateConsent_with_path E true kind fields ph si app w cp
             Hcp Htruthy).
  subst sentryStep w2 posthogStep tried opts w1 cfg'.
  rewrite Hwrite. unfold Telemetry.promise_all2.
  rewrite (reconnectPostHog_run E _ ph si app _ (VBool true) Hon eq_refl).
  destruct ph as [c|].
  - rewrite (reconnectSentry_run E _ (Some c) si app _ (VBool true) Hon eq_refl).
    destruct si; simpl.
    + repeat split; unfold connectAttempts, sentryInits; simpl; lia.
    + match goal with
      | |- context [sentry_init E ?w0 ?o] => destruct (sentry_init E w0 o); simpl
      end;
        repeat split; unfold connectAttempts, sentryInits; simpl; lia.
  - match goal with
    | |- context [posthog_new E ?w0 ?k0 ?u0] => destruct (posthog_new E w0 k0 u0)
    end;
      rewrite (reconnectSentry_run E _ _ si app _ (VBool true) Hon eq_refl);
      destruct si; simpl;
      try match goal with
          | |- context [sentry_init E ?w0 ?o] => destruct (sentry_init E w0 o); simpl
          end;
      repeat split; unfold connectAttempts, sentryInits; simpl; lia.
Qed.

Lemma updateConsent_true_witness :
  Telemetry.updateConsent (Scenario.env Scenario.posthog_down) true
    (Telemetry.mk (Scenario.cfg false (VString "/tmp/t.json")) None false "tool", [])
  = (Ok tt,
     (Telemetry.mk (Scenario.cfg true (VString "/tmp/t.json")) None true "tool",
      [ EvSentryInit (Telemetry.sentryOptions (Scenario.env Scenario.none) "tool");
        EvConsoleError "Failed to reconnect to PostHog:"
          (Scenario.failure "PostHog constructor");
        EvPostHogNew TELEMETRY_KEYS.posthogKey POSTHOG_URL;
        EvFsWriteFile (VString "/tmp/t.json") "{}" ])).
Proof.
  apply (proj1 (updateConsent_true_connects_what_is_missing
                  (Scenario.env Scenario.posthog_down) PlainObject
                  [ ("enabled", VBool false); ("instanceId", VString "id-1");
                    ("createdAt", VString "2024-01-01T00:00:00.000Z");
                    ("configPath", VString "/tmp/t.json") ]
                  None false "tool" [] (VString "/tmp/t.json")
                  eq_refl eq_refl eq_refl)).
Defined.

(** ** Shutdown, further *)

(** X15: [shutdown] stops at the first failure and leaves the rest as it
    was.  When the flush of the PostHog client throws, the client still holds
    it and Sentry is not closed; when the flush returns (or there was nothing
    to flush) and [Sentry.close] throws, the PostHog client is released but
    the client is still marked initialized. *)
Theorem shutdown_stops_at_first_failure
    (E : Env) (cfg : Value) (ph : option nat) (si : bool) (app : string)
    (w : World) :
  (forall c e,
     ph = Some c ->
     posthog_shutdown E w c = Some e ->
     Telemetry.shutdown E (Telemetry.mk cfg ph si app, w)
     = (Throw e, (Telemetry.mk cfg ph si app, EvPostHogShutdown c :: w)))
  /\ (forall e,
        si = true ->
        let w1 := match ph with
                  | Some c => EvPostHogShutdown c :: w
                  | None => w
                  end in
        (forall c, ph = Some c -> posthog_shutdown E w c = None) ->
        sentry_close E w1 2000 = Some e ->
        Telemetry.shutdown E (Telemetry.mk cfg ph si app, w)
        = (Throw e, (Telemetry.mk cfg None true app, EvSentryClose 2000 :: w1))).
Proof.
  pose proof (shutdown_run E cfg ph si app w) as Hrun. simpl in Hrun.
  split.
  - intros c e -> Hflush. rewrite Hrun, Hflush. reflexivity.
  - intros e -> w1 Hflush Hclose. rewrite Hrun. subst w1.
    destruct ph as [c|].
    + rewrite (Hflush c eq_refl), Hclose. reflexivity.
    + rewrite Hclose. reflexivity.
Qed.

Lemma shutdown_close_failure_witness :
  Telemetry.shutdown (Cases.env Cases.home_only None "y" Scenario.none true)
    (Scenario.client_up, Scenario.history_up)
  = (Throw (Scenario.failure "close"),
     (Telemetry.mk (Scenario.cfg true (VString "/tmp/t.json")) None true "tool",
      EvSentryClose 2000 :: EvPostHogShutdown 0 :: Scenario.history_up)).
Proof.
  apply (proj2 (shutdown_stops_at_first_failure
                  (Cases.env Cases.home_only None "y" Scenario.none true)
                  (Scenario.cfg true (VString "/tmp/t.json")) (Some 0%nat) true
                  "tool" Scenario.history_up)
           (Scenario.failure "close") eq_refl).
  - intros c Hc. reflexivity.
  - reflexivity.
Defined.

(** ** What a sequence of calls preserves *)

Lemma keepsFields_refl (c : Value) : keepsFields c c.
Proof. intros k _. reflexivity. Qed.

Lemma keepsFields_assign (kind : ObjKind) (fields : Props) (v : Value) :
  keepsFields (VObject kind fields) (VObject kind (assign "enabled" v fields)).
Proof.
  intros k Hk. simpl.
  rewrite lookup_assign_other; [reflexivity | apply String.eqb_neq; exact Hk].
Qed.

Ltac frame_clients_tac :=
  intros bad Hheld Hlt; simpl in Hheld, Hlt |- *; unfold clientUses; simpl;
  repeat match goal with
         | |- context [Nat.eqb bad ?c] =>
             destruct (Nat.eqb_spec bad c); [subst; try lia; try congruence|]
         end;
  repeat split; try congruence; try lia;
  try (intros Heq; injection Heq as Heq; lia).

Ltac frame_tac :=
  constructor;
  [ reflexivity
  | first [apply keepsFields_refl | apply keepsFields_assign]
  | frame_clients_tac
  | intros Hop; first [ split; reflexivity
                      | exfalso; eapply Hop; reflexivity ] ].

Lemma frame_trackEvent (E : Env) (n : string) (p : option Props)
    (this : Telemetry.t) (w : World) :
  Frame (OpTrackEvent n p) (this, w) (snd (Telemetry.trackEvent E n p (this, w))).
Proof.
  destruct (get (Telemetry.config this) "enabled") as [e|en] eqn:Hen.
  { rewrite (trackEvent_unreadable E this w n p e Hen). frame_tac. }
  destruct (truthy en) eqn:Htruthy.
  2:{ rewrite (trackEvent_disabled E this w n p en Hen Htruthy). frame_tac. }
  destruct (get_total _ _ "instanceId" _ Hen) as [id Hid].
  destruct (Telemetry.posthog this) as [c|] eqn:Hph.
  - rewrite (trackEvent_connected E this w n p en id c Hen Htruthy Hid Hph).
    destruct (posthog_capture E w c id n _); destruct this; simpl in *; frame_tac.
  - rewrite (trackEvent_disconnected E this w n p en Hen Htruthy Hph).
    destruct (posthog_new E w TELEMETRY_KEYS.posthogKey POSTHOG_URL).
    + destruct this; simpl in *; frame_tac.
    + rewrite (trackEvent_connected E _ _ n p en id (length w));
        try (destruct this; assumption); try reflexivity.
      match goal with |- context [posthog_capture E ?w0 ?c0 ?d0 ?n0 ?p0] =>
        destruct (posthog_capture E w0 c0 d0 n0 p0) end;
        destruct this; simpl in *; frame_tac.
Qed.

Lemma frame_trackError (E : Env) (err : Error) (c : option Props)
    (this : Telemetry.t) (w : World) :
  Frame (OpTrackError err c) (this, w) (snd (Telemetry.trackError E err c (this, w))).
Proof.
  destruct (get (Telemetry.config this) "enabled") as [e|en] eqn:Hen.
  { rewrite (trackError_unreadable E this w err c e Hen). frame_tac. }
  destruct (truthy en) eqn:Htruthy.
  2:{ rewrite (trackError_disabled E this w err c en Hen Htruthy). frame_tac. }
  destruct (get_total _ _ "instanceId" _ Hen) as [id Hid].
  destruct (Telemetry.sentryInitialized this) eqn:Hsi.
  - rewrite (trackError_connected E this w err c en id Hen Htruthy Hid Hsi).
    destruct (sentry_capture E w err _); destruct this; simpl in *; frame_tac.
  - rewrite (trackError_disconnected E this w err c en Hen Htruthy Hsi).
    destruct (sentry_init E w _).
    + destruct this; simpl in *; frame_tac.
    + rewrite (trackError_connected E _ _ err c en id);
        try (destruct this; assumption); try reflexivity.
      match goal with |- context [sentry_capture E ?w0 ?e0 ?x0] =>
        destruct (sentry_capture E w0 e0 x0) end;
        destruct this; simpl in *; frame_tac.
Qed.

Lemma frame_shutdown (E : Env) (this : Telemetry.t) (w : World) :
  Frame OpShutdown (this, w) (snd (Telemetry.shutdown E (this, w))).
Proof.
  destruct this as [cfg ph si app].
  pose proof (shutdown_run E cfg ph si app w) as Hrun. simpl in Hrun.
  rewrite Hrun.
  destruct ph as [c|]; destruct si;
    repeat match goal with
           | |- context [posthog_shutdown E ?w0 ?c0] =>
               destruct (posthog_shutdown E w0 c0)
           | |- context [sentry_close E ?w0 ?z] =>
               destruct (sentry_close E w0 z)
           end; frame_tac.
Qed.

Lemma frame_updateConsent (E : Env) (b : bool) (this : Telemetry.t) (w : World) :
  Frame (OpUpdateConsent b) (this, w) (snd (Telemetry.updateConsent E b (this, w))).
Proof.
  destruct (get (Telemetry.config this) "configPath") as [e|cp] eqn:Hcp.
  { rewrite (Telemetry_updateConsent_unreadable E b this w e Hcp). frame_tac. }
  destruct (truthy cp) eqn:Htruthy.
  2:{ rewrite (Telemetry_updateConsent_no_path E b this w cp Hcp Htruthy). frame_tac. }
  destruct (truthy_property_object _ _ cp Hcp Htruthy) as [kind [fields [Hcfg Hlook]]].
  destruct this as [cfg ph si app]; simpl in Hcfg; subst cfg.
  rewrite (Telemetry_updateConsent_with_path E b kind fields ph si app w cp
             Hlook Htruthy).
  destruct (fs_writeFile E w cp _); [frame_tac|].
  destruct b; [|frame_tac].
  assert (Hon : get (VObject kind (assign "enabled" (VBool true) fields)) "enabled"
                = inr (VBool true)).
  { simpl. rewrite lookup_assign_same. reflexivity. }
  unfold Telemetry.promise_all2.
  rewrite (reconnectPostHog_run E _ ph si app _ (VBool true) Hon eq_refl).
  destruct ph as [c|].
  - rewrite (reconnectSentry_run E _ (Some c) si app _ (VBool true) Hon eq_refl).
    destruct si;
      try match goal with
          | |- context [sentry_init E ?w0 ?o] => destruct (sentry_init E w0 o)
          end; frame_tac.
  - match goal with
    | |- context [posthog_new E ?w0 ?k0 ?u0] => destruct (posthog_new E w0 k0 u0)
    end;
      rewrite (reconnectSentry_run E _ _ si app _ (VBool true) Hon eq_refl);
      destruct si;
      try match goal with
          | |- context [sentry_init E ?w0 ?o] => destruct (sentry_init E w0 o)
          end; frame_tac.
Qed.

Lemma frame_perform (E : Env) (op : Op) (s : Telemetry.t * World) :
  Frame op s (snd (perform E op s)).
Proof.
  destruct s as [this w]. destruct op; simpl.
  - apply frame_trackEvent.
  - apply frame_trackError.
  - apply frame_updateConsent.
  - apply frame_shutdown.
Qed.

(** X16: no sequence of [trackEvent], [trackError], [updateConsent] and
    [shutdown] calls, whatever they return or throw, changes any property of
    the config other than [enabled]: [instanceId], [configPath] and
    [createdAt] read the same as at the start, and so does the client's
    application name. *)
Theorem config_fields_other_than_enabled_never_change
    (E : Env) (ops : list Op) (this : Telemetry.t) (w : World) (k : string) :
  k <> "enabled" ->
  get (Telemetry.config (fst (perform_all E ops (this, w)))) k
  = get (Telemetry.config this) k
  /\ Telemetry.appName (fst (perform_all E ops (this, w))) = Telemetry.appName this.
Proof.
  intros Hk. revert this w.
  induction ops as [|op rest IH]; intros this w; simpl.
  - split; reflexivity.
  - pose proof (frame_perform E op (this, w)) as F.
    destruct (snd (perform E op (this, w))) as [this' w'].
    destruct (IH this' w') as [Hget Happ].
    rewrite Hget, Happ. split.
    + apply (frame_fields _ _ _ F k Hk).
    + apply (frame_appName _ _ _ F).
Qed.

Lemma config_fields_never_change_witness :
  get (Telemetry.config
         (fst (perform_all (Scenario.env Scenario.write_failing)
                 [ OpUpdateConsent false; OpTrackEvent "x" None;
                   OpUpdateConsent true; OpShutdown ]
                 (Scenario.client_up, Scenario.history_up))))
      "instanceId"
  = inr (VString "id-1").
Proof.
  apply (proj1 (config_fields_other_than_enabled_never_change
                  (Scenario.env Scenario.write_failing)
                  [ OpUpdateConsent false; OpTrackEvent "x" None;
                    OpUpdateConsent true; OpShutdown ]
                  Scenario.client_up Scenario.history_up "instanceId"
                  ltac:(discriminate))).
Defined.

Lemma perform_all_leavesAlone (E : Env) (ops : list Op) (bad : nat) :
  forall s, leavesAlone bad s (perform_all E ops s).
Proof.
  induction ops as [|op rest IH]; intros s Hheld Hlt; simpl.
  - repeat split; assumption.
  - pose proof (frame_perform E op s) as F.
    destruct (frame_clients _ _ _ F bad Hheld Hlt) as [Hheld' [Hlt' Huses]].
    destruct (IH (snd (perform E op s)) Hheld' Hlt') as [Hheld'' [Hlt'' Huses']].
    repeat split; try assumption. congruence.
Qed.

(** X18: only [updateConsent] touches the config and the file system: a
    sequence of [trackEvent], [trackError] and [shutdown] calls leaves the
    config object exactly as it was and makes no file system call. *)
Theorem tracking_and_shutdown_touch_neither_config_nor_files
    (E : Env) (ops : list Op) (this : Telemetry.t) (w : World) :
  forallb (fun op => negb (isUpdateConsent op)) ops = true ->
  Telemetry.config (fst (perform_all E ops (this, w))) = Telemetry.config this
  /\ fsCalls (snd (perform_all E ops (this, w))) = fsCalls w.
Proof.
  revert this w.
  induction ops as [|op rest IH]; intros this w Hops; simpl.
  - split; reflexivity.
  - simpl in Hops. apply andb_prop in Hops. destruct Hops as [Hop Hrest].
    pose proof (frame_perform E op (this, w)) as F.
    destruct (frame_config _ _ _ F) as [Hcfg Hfs].
    { intros b ->. discriminate Hop. }
    destruct (snd (perform E op (this, w))) as [this' w'].
    destruct (IH this' w' Hrest) as [Hcfg' Hfs'].
    simpl in Hcfg, Hfs. split; congruence.
Qed.

Lemma tracking_and_shutdown_witness :
  fsCalls
    (snd (perform_all (Scenario.env Scenario.none)
            [ OpTrackEvent "x" None; OpTrackError (Scenario.failure "boom") None;
              OpShutdown; OpTrackEvent "y" None ]
            (Scenario.client_up, Scenario.history_up)))
  = [].
Proof.
  apply (proj2 (tracking_and_shutdown_touch_neither_config_nor_files
                  (Scenario.env Scenario.none)
                  [ OpTrackEvent "x" None; OpTrackError (Scenario.failure "boom") None;
                    OpShutdown; OpTrackEvent "y" None ]
                  Scenario.client_up Scenario.history_up eq_refl)).
Defined.

(** X19: [updateConsent] makes at most one file system call, and never
    creates a directory: either it touches no file, or it writes once, to
    the config's own [configPath], the JSON of the config as it then is in
    memory. *)
Theorem updateConsent_writes_at_most_once_to_configPath
    (E : Env) (b : bool) (this : Telemetry.t) (w : World) :
  let s' := snd (Telemetry.updateConsent E b (this, w)) in
  fsCalls (snd s') = fsCalls w
  \/ exists cp,
       get (Telemetry.config this) "configPath" = inr cp
       /\ truthy cp = true
       /\ fsCalls (snd s')
          = EvFsWriteFile cp (JSON_stringify E (Telemetry.config (fst s')))
            :: fsCalls w.
Proof.
  intros s'. subst s'.
  destruct (get (Telemetry.config this) "configPath") as [e|cp] eqn:Hcp.
  { rewrite (Telemetry_updateConsent_unreadable E b this w e Hcp). left. reflexivity. }
  destruct (truthy cp) eqn:Htruthy.
  2:{ rewrite (Telemetry_updateConsent_no_path E b this w cp Hcp Htruthy).
      left. reflexivity. }
  right. exists cp. split; [reflexivity|]. split; [exact Htruthy|].
  destruct (truthy_property_object _ _ cp Hcp Htruthy) as [kind [fields [Hcfg Hlook]]].
  destruct this as [cfg ph si app]; simpl in Hcfg; subst cfg.
  rewrite (Telemetry_updateConsent_with_path E b kind fields ph si app w cp
             Hlook Htruthy).
  destruct (fs_writeFile E w cp _); [reflexivity|].
  destruct b; [|reflexivity].
  assert (Hon : get (VObject kind (assign "enabled" (VBool true) fields)) "enabled"
                = inr (VBool true)).
  { simpl. rewrite lookup_assign_same. reflexivity. }
  unfold Telemetry.promise_all2.
  rewrite (reconnectPostHog_run E _ ph si app _ (VBool true) Hon eq_refl).
  destruct ph as [c|].
  - rewrite (reconnectSentry_run E _ (Some c) si app _ (VBool true) Hon eq_refl).
    destruct si;
      try match goal with
          | |- context [sentry_init E ?w0 ?o] => destruct (sentry_init E w0 o)
          end; reflexivity.
  - match goal with
    | |- context [posthog_new E ?w0 ?k0 ?u0] => destruct (posthog_new E w0 k0 u0)
    end;
      rewrite (reconnectSentry_run E _ _ si app _ (VBool true) Hon eq_refl);
      destruct si;
      try match goal with
          | |- context [sentry_init E ?w0 ?o] => destruct (sentry_init E w0 o)
          end; reflexivity.
Qed.

(** ** Shutdown twice *)

(** C8, as the code has it: [shutdown] is idempotent once it has returned.
    [shutdown] followed by [shutdown], the second run when the first
    returned, is one [shutdown]: same outcome, same client, same history of
    calls.  After a [shutdown] that returned, both handles are released and a
    second [shutdown] returns without any call.  After a [shutdown] that
    threw, a handle is still held, and a second [shutdown] makes at least one
    further flush or close call. *)
Theorem shutdown_idempotent (E : Env) (this : Telemetry.t) (w : World) :
  (Telemetry.shutdown E ;; Telemetry.shutdown E) (this, w)
  = Telemetry.shutdown E (this, w)
  /\ (forall this1 w1,
        Telemetry.shutdown E (this, w) = (Ok tt, (this1, w1)) ->
        Telemetry.posthog this1 = None
        /\ Telemetry.sentryInitialized this1 = false
        /\ Telemetry.shutdown E (this1, w1) = (Ok tt, (this1, w1)))
  /\ (forall this1 w1 e,
        Telemetry.shutdown E (this, w) = (Throw e, (this1, w1)) ->
        (Telemetry.posthog this1 <> None
         \/ Telemetry.sentryInitialized this1 = true)
        /\ length (backendCalls w1)
           < length (backendCalls (snd (snd (Telemetry.shutdown E (this1, w1)))))).
Proof.
  destruct this as [cfg ph si app].
  pose proof (shutdown_run E cfg ph si app w) as Hrun. simpl in Hrun.
  split; [|split].
  - unfold bind. rewrite Hrun.
    destruct ph as [c|]; destruct si;
      repeat match goal with
             | |- context [posthog_shutdown E ?w0 ?c0] =>
                 destruct (posthog_shutdown E w0 c0)
             | |- context [sentry_close E ?w0 ?z] =>
                 destruct (sentry_close E w0 z)
             end; reflexivity.
  - intros this1 w1 Hok.
    destruct (shutdown_returned_released E _ this1 w w1 Hok) as [Hrel _].
    destruct Hrel as [Hph Hsi].
    split; [exact Hph|]. split; [exact Hsi|].
    apply shutdown_released_noop. split; assumption.
  - intros this1 w1 e Hthrow. rewrite Hrun in Hthrow.
    destruct ph as [c|]; destruct si;
      repeat match type of Hthrow with
             | context [posthog_shutdown E ?w0 ?c0] =>
                 destruct (posthog_shutdown E w0 c0)
             | context [sentry_close E ?w0 ?z] =>
                 destruct (sentry_close E w0 z)
             end;
      try discriminate Hthrow;
      injection Hthrow as _ <- <-;
      (split; [first [left; discriminate | right; reflexivity]|]);
      match goal with
      | |- context [Telemetry.shutdown E (Telemetry.mk ?c0 ?p0 ?s0 ?a0, ?w0)] =>
          pose proof (shutdown_run E c0 p0 s0 a0 w0) as Hrun2; simpl in Hrun2;
          rewrite Hrun2
      end;
      repeat match goal with
             | |- context [posthog_shutdown E ?w0 ?c0] =>
                 destruct (posthog_shutdown E w0 c0)
             | |- context [sentry_close E ?w0 ?z] =>
                 destruct (sentry_close E w0 z)
             end;
      unfold backendCalls; simpl; lia.
Qed.

Lemma shutdown_twice_witness :
  Telemetry.shutdown (Scenario.env Scenario.none)
    (Telemetry.mk (Scenario.cfg true (VString "/tmp/t.json")) None false "tool",
     EvSentryClose 2000 :: EvPostHogShutdown 0 :: Scenario.history_up)
  = (Ok tt,
     (Telemetry.mk (Scenario.cfg true (VString "/tmp/t.json")) None false "tool",
      EvSentryClose 2000 :: EvPostHogShutdown 0 :: Scenario.history_up)).
Proof.
  apply (proj1 (proj2 (shutdown_idempotent (Scenario.env Scenario.none)
                         Scenario.client_up Scenario.history_up))
           (Telemetry.mk (Scenario.cfg true (VString "/tmp/t.json")) None false "tool")
           (EvSentryClose 2000 :: EvPostHogShutdown 0 :: Scenario.history_up)
           eq_refl).
Defined.

(** C8 as stated fails: when the flush of the PostHog client throws, the
    first [shutdown] raises and releases nothing; a second [shutdown] flushes
    the same client again and raises again. *)
Lemma shutdown_again_after_failed_flush_flushes_again :
  Telemetry.shutdown (Scenario.env Scenario.flush_failing)
    (Scenario.client_up, Scenario.history_up)
  = (Throw (Scenario.failure "flush"),
     (Scenario.client_up, EvPostHogShutdown 0 :: Scenario.history_up))
  /\ Telemetry.shutdown (Scenario.env Scenario.flush_failing)
       (Scenario.client_up, EvPostHogShutdown 0 :: Scenario.history_up)
     = (Throw (Scenario.failure "flush"),
        (Scenario.client_up,
         EvPostHogShutdown 0 :: EvPostHogShutdown 0 :: Scenario.history_up)).
Proof. split; reflexivity. Qed.

(** ** After shutdown: what reconnects *)

(** Giving consent from the released state, when the write succeeds: one
    constructor call and one [Sentry.init], and the call returns. *)
Lemma updateConsent_true_from_released (E : Env) (kind : ObjKind) (fields : Props)
    (app : string) (w : World) (cp : Value) :
  lookup "configPath" fields = Some cp ->
  truthy cp = true ->
  fs_writeFile E w cp
    (JSON_stringify E (VObject kind (assign "enabled" (VBool true) fields))) = None ->
  let r := Telemetry.updateConsent E true
             (Telemetry.mk (VObject kind fields) None false app, w) in
  fst r = Ok tt
  /\ connectAttempts (snd (snd r)) = S (connectAttempts w)
  /\ sentryInits (snd (snd r)) = S (sentryInits w).
Proof.
  intros Hcp Htruthy Hwrite r. subst r.
  assert (Hon : get (VObject kind (assign "enabled" (VBool true) fields)) "enabled"
                = inr (VBool true)).
  { simpl. rewrite lookup_assign_same. reflexivity. }
  rewrite (Telemetry_updateConsent_with_path E true kind fields None false app w cp
             Hcp Htruthy).
  rewrite Hwrite. unfold Telemetry.promise_all2.
  rewrite (reconnectPostHog_run E _ None false app _ (VBool true) Hon eq_refl).
  match goal with
  | |- context [posthog_new E ?w0 ?k0 ?u0] => destruct (posthog_new E w0 k0 u0)
  end;
    rewrite (reconnectSentry_run E _ _ false app _ (VBool true) Hon eq_refl);
    match goal with
    | |- context [sentry_init E ?w0 ?o] => destruct (sentry_init E w0 o)
    end;
    repeat split.
Qed.

(** C3, as the code has it: after a [shutdown] that returned, no PostHog
    client object is held and Sentry is not marked initialized.  On a
    disabled config these stay so, and no call into either SDK is made,
    through any later [trackEvent], [trackError], [updateConsent(false)] and
    [shutdown].  On an enabled config the released state is not terminal:
    [trackEvent] calls the PostHog constructor once and, when it returns,
    dispatches through the new client in the same call (when it throws, the
    failure is logged and nothing is dispatched); [trackError] calls
    [Sentry.init] once and, when it returns, submits in the same call (when
    it throws, the failure is logged and nothing is submitted); and
    [updateConsent(true)] whose write succeeds returns having called the
    constructor once and [Sentry.init] once. *)
Theorem shutdown_releases_and_only_a_disabled_client_stays_released :
  (forall E this w this1 w1,
     Telemetry.shutdown E (this, w) = (Ok tt, (this1, w1)) ->
     Telemetry.posthog this1 = None
     /\ Telemetry.sentryInitialized this1 = false
     /\ Telemetry.config this1 = Telemetry.config this)
  /\ (forall E ops this w en,
        get (Telemetry.config this) "enabled" = inr en ->
        truthy en = false ->
        Telemetry.posthog this = None ->
        Telemetry.sentryInitialized this = false ->
        forallb (fun op => negb (enablesConsent op)) ops = true ->
        Telemetry.posthog (fst (perform_all E ops (this, w))) = None
        /\ Telemetry.sentryInitialized (fst (perform_all E ops (this, w))) = false
        /\ backendCalls (snd (perform_all E ops (this, w))) = backendCalls w)
  /\ (forall E this (w : World) n p en id,
        get (Telemetry.config this) "enabled" = inr en ->
        truthy en = true ->
        get (Telemetry.config this) "instanceId" = inr id ->
        Telemetry.posthog this = None ->
        let tried := EvPostHogNew TELEMETRY_KEYS.posthogKey POSTHOG_URL :: w in
        let props := Telemetry.enrichedProperties E
                       (match p with Some p => p | None => [] end) id in
        let s' := snd (Telemetry.trackEvent E n p (this, w)) in
        connectAttempts (snd s') = S (connectAttempts w)
        /\ (posthog_new E w TELEMETRY_KEYS.posthogKey POSTHOG_URL = None ->
            s' = (Telemetry.set_posthog (Some (length w)) this,
                  EvPostHogCapture (length w) id n props :: tried))
        /\ (forall e,
              posthog_new E w TELEMETRY_KEYS.posthogKey POSTHOG_URL = Some e ->
              Telemetry.trackEvent E n p (this, w)
              = (Ok tt,
                 (this,
                  EvConsoleError "Failed to reconnect to PostHog:" e :: tried))))
  /\ (forall E this (w : World) err c en id,
        get (Telemetry.config this) "enabled" = inr en ->
        truthy en = true ->
        get (Telemetry.config this) "instanceId" = inr id ->
        Telemetry.sentryInitialized this = false ->
        let opts := Telemetry.sentryOptions E (Telemetry.appName this) in
        let x := Telemetry.extras E (match c with Some c => c | None => [] end) id in
        let s' := snd (Telemetry.trackError E err c (this, w)) in
        sentryInits (snd s') = S (sentryInits w)
        /\ (sentry_init E w opts = None ->
            s' = (Telemetry.set_sentryInitialized true this,
                  EvSentryCapture err x :: EvSentryInit opts :: w))
        /\ (forall e,
              sentry_init E w opts = Some e ->
              Telemetry.trackError E err c (this, w)
              = (Ok tt,
                 (this,
                  EvConsoleError "Failed to reconnect to Sentry:" e
                  :: EvSentryInit opts :: w))))
  /\ (forall E kind fields app (w : World) cp,
        lookup "configPath" fields = Some cp ->
        truthy cp = true ->
        fs_writeFile E w cp
          (JSON_stringify E (VObject kind (assign "enabled" (VBool true) fields)))
        = None ->
        let r := Telemetry.updateConsent E true
                   (Telemetry.mk (VObject kind fields) None false app, w) in
        fst r = Ok tt
        /\ connectAttempts (snd (snd r)) = S (connectAttempts w)
        /\ sentryInits (snd (snd r)) = S (sentryInits w)).
Proof.
  split; [|split; [|split; [|split]]].
  - intros E this w this1 w1 Hok.
    destruct (shutdown_returned_released E this this1 w w1 Hok) as [[Hph Hsi] Hcfg].
    repeat split; assumption.
  - intros E ops this w en Hen Hfalsy Hph Hsi Hops.
    destruct (perform_all_disabled_released E ops this w) as [[Hph' Hsi'] Hcalls].
    + exists en. split; assumption.
    + split; assumption.
    + exact Hops.
    + repeat split; assumption.
  - intros E this w n p en id Hen Htruthy Hid Hnone tried props s'. subst s'.
    rewrite (trackEvent_disconnected E this w n p en Hen Htruthy Hnone).
    destruct (posthog_new E w TELEMETRY_KEYS.posthogKey POSTHOG_URL) as [e|].
    + split; [reflexivity|]. split; [discriminate|].
      intros e' He'. injection He' as <-. reflexivity.
    + rewrite (trackEvent_connected E _ _ n p en id (length w));
        try (destruct this; assumption); try reflexivity.
      fold props. fold tried.
      destruct (posthog_capture E tried (length w) id n props); simpl;
        (split; [reflexivity|]); (split; [reflexivity | discriminate]).
  - intros E this w err c en id Hen Htruthy Hid Hinit opts x s'. subst s'.
    rewrite (trackError_disconnected E this w err c en Hen Htruthy Hinit).
    fold opts.
    destruct (sentry_init E w opts) as [e|].
    + split; [reflexivity|]. split; [discriminate|].
      intros e' He'. injection He' as <-. reflexivity.
    + rewrite (trackError_connected E _ _ err c en id);
        try (destruct this; assumption); try reflexivity.
      fold x.
      destruct (sentry_capture E (EvSentryInit opts :: w) err x); simpl;
        (split; [reflexivity|]); (split; [reflexivity | discriminate]).
  - intros E kind fields app w cp Hcp Htruthy Hwrite.
    exact (updateConsent_true_from_released E kind fields app w cp Hcp Htruthy Hwrite).
Qed.

Lemma disabled_client_stays_released_witness :
  backendCalls
    (snd (perform_all (Scenario.env Scenario.none)
            [ OpTrackEvent "command_executed" None;
              OpTrackError (Scenario.failure "boom") None;
              OpUpdateConsent false; OpShutdown ]
            (Telemetry.mk (Scenario.cfg false (VString "/tmp/t.json")) None false "tool",
             [EvSentryClose 2000; EvPostHogShutdown 0])))
  = [EvSentryClose 2000; EvPostHogShutdown 0].
Proof.
  apply (proj1 (proj2 shutdown_releases_and_only_a_disabled_client_stays_released)
           (Scenario.env Scenario.none)
           [ OpTrackEvent "command_executed" None;
             OpTrackError (Scenario.failure "boom") None;
             OpUpdateConsent false; OpShutdown ]
           (Telemetry.mk (Scenario.cfg false (VString "/tmp/t.json")) None false "tool")
           [EvSentryClose 2000; EvPostHogShutdown 0] (VBool false));
    reflexivity.
Defined.

(** ** A flushed PostHog client *)

(** X17: a PostHog client object that [shutdown] has flushed is released,
    whether or not the [Sentry.close] that follows throws, and is never used
    again: through any later sequence of calls, including those that
    reconnect, no [capture] and no flush is made on it and the client never
    holds it again. *)
Theorem flushed_posthog_client_is_never_used_again
    (E : Env) (this : Telemetry.t) (w : World) (c : nat) (ops : list Op) :
  Telemetry.posthog this = Some c ->
  c < length w ->
  posthog_shutdown E w c = None ->
  let s1 := snd (Telemetry.shutdown E (this, w)) in
  Telemetry.posthog (fst s1) = None
  /\ clientUses c (snd (perform_all E ops s1)) = clientUses c (snd s1)
  /\ Telemetry.posthog (fst (perform_all E ops s1)) <> Some c.
Proof.
  intros Hph Hlt Hflush s1.
  assert (Hs1 : Telemetry.posthog (fst s1) = None /\ c < length (snd s1)).
  { subst s1. destruct this as [cfg ph si app]; simpl in Hph; subst ph.
    pose proof (shutdown_run E cfg (Some c) si app w) as Hrun. simpl in Hrun.
    rewrite Hrun, Hflush.
    destruct si; [destruct (sentry_close E _ 2000)|]; simpl; split;
      try reflexivity; lia. }
  destruct Hs1 as [Hnone Hlt1].
  destruct (perform_all_leavesAlone E ops c s1) as [Hheld [_ Huses]].
  - rewrite Hnone. discriminate.
  - exact Hlt1.
  - split; [exact Hnone|]. split; assumption.
Qed.

Lemma flushed_posthog_client_witness :
  clientUses 0
    (snd (perform_all (Cases.env Cases.home_only None "y" Scenario.none true)
            [ OpTrackEvent "x" None; OpUpdateConsent true; OpTrackEvent "y" None;
              OpShutdown ]
            (snd (Telemetry.shutdown
                    (Cases.env Cases.home_only None "y" Scenario.none true)
                    (Scenario.client_up, Scenario.history_up)))))
  = [EvPostHogShutdown 0].
Proof.
  apply (proj1 (proj2 (flushed_posthog_client_is_never_used_again
                         (Cases.env Cases.home_only None "y" Scenario.none true)
                         Scenario.client_up Scenario.history_up 0%nat
                         [ OpTrackEvent "x" None; OpUpdateConsent true;
                           OpTrackEvent "y" None; OpShutdown ]
                         eq_refl ltac:(simpl; lia) eq_refl))).
Defined.
